(** * FinanceDecoder: the worksheet tidy-extractor of [scraper/tidy_decoder.py]

    A shallow embedding of [tidy_from_file] and of the batch loop of [main],
    with the properties of the extractor that the specification states;
    then of [find_workbooks], of [to_excel_url] and [safe_filename] of
    [scraper/scrape_mymaps_sheets.py], and of the callbacks of
    [dashboard/app.py], with properties read off the code.

    Conventions of the embedding

    - A DataFrame read with [header=None] is a rectangular grid of Python
      objects.  It is represented by its list of rows; a row shorter than
      the widest one stands for a row padded with NaN, which is what
      [read_excel] produces for the blank cells on the right.
    - Python exceptions are identified by the name of their class.
    - A Python [str] is the string of the bytes of its UTF-8 encoding;
      [strip] knows the white space of [str.isspace], ASCII or not.
    - A finite Python float is the rational it denotes, carried together
      with the text [str] renders it as; a text cell is carried together
      with what [int()] makes of it.
    - The frame that [DataFrame.from_records] builds is the list of its rows;
      a value that pandas converts to float64 is written [Float64 z], the
      float of the int [z]. *)

From Stdlib Require Import List String Ascii Bool Arith ZArith QArith Lia.
From Stdlib Require Import DecimalString Sorted Permutation.
Import ListNotations.

Local Open Scope string_scope.
Local Open Scope list_scope.
Local Open Scope nat_scope.

(** ** Exceptions *)

Module Py.

Inductive result (A : Type) : Type :=
| Ok (a : A)
| Raise (exn : string).

Arguments Ok {A} a.
Arguments Raise {A} exn.

Definition bind {A B : Type} (m : result A) (k : A -> result B) : result B :=
  match m with
  | Ok a => k a
  | Raise e => Raise e
  end.

Definition is_ok {A : Type} (m : result A) : bool :=
  match m with Ok _ => true | Raise _ => false end.

End Py.

Import Py.

Notation "x <- m ;; k" := (Py.bind m (fun x => k))
  (at level 61, m at next level, right associativity).

(** ** Python strings *)

Module Str.

(** The characters of [str.isspace], in UTF-8.  One byte: tab, LF, VT, FF,
    CR, FS, GS, RS, US and the space. *)
Definition is_space (c : ascii) : bool :=
  let n := nat_of_ascii c in
  ((9 <=? n) && (n <=? 13)) || ((28 <=? n) && (n <=? 32)).

(** Two bytes: U+0085 and U+00A0. *)
Definition is_space2 (a b : ascii) : bool :=
  (nat_of_ascii a =? 194) &&
  ((nat_of_ascii b =? 133) || (nat_of_ascii b =? 160)).

(** Three bytes: U+1680, U+2000 to U+200A, U+2028, U+2029, U+202F, U+205F
    and U+3000. *)
Definition is_space3 (a b c : ascii) : bool :=
  let x := nat_of_ascii a in
  let y := nat_of_ascii b in
  let z := nat_of_ascii c in
  ((x =? 225) && (y =? 154) && (z =? 128)) ||
  ((x =? 226) && (y =? 128) &&
   (((128 <=? z) && (z <=? 138)) || (z =? 168) || (z =? 169) || (z =? 175))) ||
  ((x =? 226) && (y =? 129) && (z =? 159)) ||
  ((x =? 227) && (y =? 128) && (z =? 128)).

(** [s] starts with a white-space character. *)
Definition starts_with_space (s : string) : bool :=
  match s with
  | EmptyString => false
  | String a r1 =>
      is_space a ||
      match r1 with
      | EmptyString => false
      | String b r2 =>
          is_space2 a b ||
          match r2 with
          | EmptyString => false
          | String c _ => is_space3 a b c
          end
      end
  end.

(** [s.lstrip()] *)
Fixpoint lstrip (s : string) : string :=
  match s with
  | EmptyString => EmptyString
  | String a r1 =>
      if is_space a then lstrip r1
      else
        match r1 with
        | EmptyString => s
        | String b r2 =>
            if is_space2 a b then lstrip r2
            else
              match r2 with
              | EmptyString => s
              | String c r3 => if is_space3 a b c then lstrip r3 else s
              end
        end
  end.

(** [s] holds white-space characters only. *)
Fixpoint all_space (s : string) : bool :=
  match s with
  | EmptyString => true
  | String a r1 =>
      if is_space a then all_space r1
      else
        match r1 with
        | EmptyString => false
        | String b r2 =>
            if is_space2 a b then all_space r2
            else
              match r2 with
              | EmptyString => false
              | String c r3 => is_space3 a b c && all_space r3
              end
        end
  end.

(** [s.rstrip()]: the text up to the white space that ends [s]. *)
Fixpoint rstrip (s : string) : string :=
  match s with
  | EmptyString => EmptyString
  | String c rest => if all_space s then EmptyString else String c (rstrip rest)
  end.

(** [s.strip()] *)
Definition strip (s : string) : string := rstrip (lstrip s).

(** [c in s] for a one-character [c]. *)
Fixpoint contains (c : ascii) (s : string) : bool :=
  match s with
  | EmptyString => false
  | String a rest => (a =? c)%char || contains c rest
  end.

(** [s.split(c, 1)]: at most one split, at the first occurrence of [c]. *)
Fixpoint split1 (c : ascii) (s : string) : list string :=
  match s with
  | EmptyString => [EmptyString]
  | String a rest =>
      if (a =? c)%char then [EmptyString; rest]
      else match split1 c rest with
           | hd :: tl => String a hd :: tl
           | [] => []
           end
  end.

(** [s.rfind(c)], with Python's [-1] for an absent character. *)
Fixpoint rfind_from (c : ascii) (s : string) (i : Z) (last : Z) : Z :=
  match s with
  | EmptyString => last
  | String a rest =>
      rfind_from c rest (i + 1)%Z (if (a =? c)%char then i else last)
  end.

Definition rfind (c : ascii) (s : string) : Z := rfind_from c s 0%Z (-1)%Z.

(** [s[i:]] and [s[:i]] for [0 <= i]. *)
Definition slice_from (s : string) (i : Z) : string :=
  substring (Z.to_nat i) (String.length s - Z.to_nat i) s.

Definition slice_to (s : string) (i : Z) : string :=
  substring 0 (Z.to_nat i) s.

(** [str(z)] for a Python int. *)
Definition of_Z (z : Z) : string := NilZero.string_of_int (Z.to_int z).

End Str.

(** ** [os.path] (POSIX flavour) *)

Module OsPath.

(** [os.path.basename(p)]: [p[p.rfind('/') + 1:]]. *)
Definition basename (p : string) : string :=
  Str.slice_from p (Str.rfind "/" p + 1).

(** The loop of [genericpath._splitext] that skips leading dots: is there a
    character other than the dot in [p[filenameIndex:dotIndex]]? *)
Definition has_stem (p : string) (filenameIndex dotIndex : Z) : bool :=
  existsb
    (fun k => match String.get k p with
              | Some a => negb (a =? ".")%char
              | None => true
              end)
    (seq (Z.to_nat filenameIndex) (Z.to_nat dotIndex - Z.to_nat filenameIndex)).

(** [os.path.splitext(p)] *)
Definition splitext (p : string) : string * string :=
  let sepIndex := Str.rfind "/" p in
  let dotIndex := Str.rfind "." p in
  if (sepIndex <? dotIndex)%Z && has_stem p (sepIndex + 1) dotIndex
  then (Str.slice_to p dotIndex, Str.slice_from p dotIndex)
  else (p, EmptyString).

End OsPath.

(** ** State and city from the file name ([tidy_from_file], lines 18-25) *)

Definition name_no_ext (path : string) : string :=
  let base := OsPath.basename path in
  fst (OsPath.splitext base).

(** The unpacking [state, city = name_no_ext.split("_", 1)] needs a list of
    two elements; any other length raises [ValueError]. *)
Definition labels_of_name (name_no_ext : string)
  : result (option string * string) :=
  if Str.contains "_" name_no_ext then
    match Str.split1 "_" name_no_ext with
    | [state; city] => Ok (Some state, city)
    | _ => Raise "ValueError"
    end
  else Ok (None, name_no_ext).

(** ** Cell values *)

(** What a cell of the DataFrame can hold. *)
Inductive cell : Type :=
| NaN                              (* blank cell: [float('nan')] *)
| PInt (z : Z)                     (* Python [int] *)
| PFloat (q : Q) (repr : string)   (* finite [float] and its [str] *)
| PBool (b : bool)                 (* [bool], a subclass of [int] *)
| PStr (s : string) (as_int : option Z)
                                   (* [str], and [int(s)] unless it raises *)
| PObj (repr : string).            (* any other object (a datetime), and its [str] *)

(** [pd.isna(x)] *)
Definition isna (x : cell) : bool :=
  match x with NaN => true | _ => false end.

Definition notna (x : cell) : bool := negb (isna x).

(** [isinstance(x, (int, float)) and 1900 <= x <= 2100]; every comparison
    with NaN is false. *)
Definition is_year_value (x : cell) : bool :=
  match x with
  | PInt z => (1900 <=? z)%Z && (z <=? 2100)%Z
  | PFloat q _ => Qle_bool (1900 # 1) q && Qle_bool q (2100 # 1)
  | PBool _ | NaN | PStr _ _ | PObj _ => false
  end.

(** [x != 0] *)
Definition ne_zero (x : cell) : bool :=
  match x with
  | PInt z => negb (z =? 0)%Z
  | PFloat q _ => negb (Qeq_bool q (0 # 1))
  | PBool b => b
  | NaN | PStr _ _ | PObj _ => true
  end.

(** [str(x)] *)
Definition str (x : cell) : string :=
  match x with
  | NaN => "nan"
  | PInt z => Str.of_Z z
  | PFloat _ repr => repr
  | PBool true => "True"
  | PBool false => "False"
  | PStr s _ => s
  | PObj repr => repr
  end.

(** [int(x)]: truncation towards zero for a float, [ValueError] for a text
    that is no integer literal, [TypeError] for a datetime. *)
Definition py_int (x : cell) : result Z :=
  match x with
  | NaN => Raise "ValueError"
  | PInt z => Ok z
  | PFloat q _ => Ok (Z.quot (Qnum q) (Z.pos (Qden q)))
  | PBool b => Ok (if b then 1%Z else 0%Z)
  | PStr _ as_int => match as_int with
                      | Some z => Ok z
                      | None => Raise "ValueError"
                      end
  | PObj _ => Raise "TypeError"
  end.

(** ** The DataFrame *)

Definition DataFrame : Type := list (list cell).

(** [df.shape[0]] and [df.shape[1]] *)
Definition nrows (df : DataFrame) : nat := List.length df.

Definition ncols (df : DataFrame) : nat :=
  fold_right (fun row w => Nat.max (List.length row) w) 0 df.

(** [df.iat[r, c]] / [df.iloc[r, c]] *)
Definition iat (df : DataFrame) (r c : nat) : cell :=
  nth c (nth r df []) NaN.

(** [range(a, b)] *)
Definition range (a b : nat) : list nat := seq a (b - a).

(** [df.loc[r, c0:].tolist()] *)
Definition loc_row (df : DataFrame) (r c0 : nat) : list cell :=
  map (iat df r) (range c0 (ncols df)).

(** [df.loc[r0:r1, c]]: label slices include both ends. *)
Definition loc_col (df : DataFrame) (r0 r1 c : nat) : list cell :=
  map (fun r => iat df r c) (range r0 (S r1)).

(** ** Observation records *)

(** The dict of lines 82-88, and a row of the frame, with the type of the
    value left open. *)
Record record_of (V : Type) : Type := mk_record {
  state : option string;
  city : string;
  variable : string;
  year : Z;
  value : V
}.

Arguments mk_record {V} state city variable year value.
Arguments state {V} r.
Arguments city {V} r.
Arguments variable {V} r.
Arguments year {V} r.
Arguments value {V} r.

(** A record as appended to [records]: its value is the cell. *)
Definition record : Type := record_of cell.

(** A value of the frame: the object of the record as it is (an object
    other than a number or a text being known by its [str], as in a cell),
    or the float64 that pandas converts an int to. *)
Inductive frame_value : Type :=
| Same (x : cell)
| Float64 (z : Z).

(** A row of the frame. *)
Definition row : Type := record_of frame_value.

(** ** [tidy_from_file] *)

(** Line 31: the first index of the rows selected by the boolean mask on
    column 4.  [df[4]] raises [KeyError] when there is no column labelled 4,
    [.index[0]] raises [IndexError] when the mask selects nothing. *)
Definition find_year_row (df : DataFrame) : result nat :=
  if ncols df <? 5 then Raise "KeyError"
  else match find (fun r => is_year_value (iat df r 4)) (range 0 (nrows df)) with
       | Some r => Ok r
       | None => Raise "IndexError"
       end.

(** [segment.apply(lambda x: pd.notna(x) and x != 0).any()] *)
Definition has_data (segment : list cell) : bool :=
  existsb (fun x => notna x && ne_zero x) segment.

(** [min(27, df.shape[0] - 1)] *)
Definition end_idx (df : DataFrame) : Z :=
  Z.min 27 (Z.of_nat (nrows df) - 1).

(** Lines 39-58: the loop over [enumerate(raw_years)], with the two lists it
    appends to. *)
Fixpoint year_loop (df : DataFrame) (year_row : nat) (offset : nat)
    (raw_years : list cell) (valid_years : list Z) (valid_cols : list nat)
  : result (list Z * list nat) :=
  match raw_years with
  | [] => Ok (valid_years, valid_cols)
  | yr :: rest =>
      if isna yr then
        year_loop df year_row (S offset) rest valid_years valid_cols
      else
        let col_idx := 4 + offset in
        let start_idx := year_row + 2 in
        if (end_idx df <? Z.of_nat start_idx)%Z then
          year_loop df year_row (S offset) rest valid_years valid_cols
        else
          let segment := loc_col df start_idx (Z.to_nat (end_idx df)) col_idx in
          if has_data segment then
            y <- py_int yr ;;
            year_loop df year_row (S offset) rest
              (valid_years ++ [y]) (valid_cols ++ [col_idx])
          else
            year_loop df year_row (S offset) rest valid_years valid_cols
  end.

(** [pd.isna(label) or str(label).strip() == ""] *)
Definition blank_label (label : cell) : bool :=
  isna label || (Str.strip (str label) =? "")%string.

(** Lines 61-71: the scan of column A over the rows still to visit, with the
    current [empty_streak]. *)
Fixpoint scan_labels (df : DataFrame) (rows : list nat) (empty_streak : nat)
  : list (string * nat) :=
  match rows with
  | [] => []
  | r :: rest =>
      let label := iat df r 0 in
      if blank_label label then
        let empty_streak := S empty_streak in
        if 5 <=? empty_streak then []
        else scan_labels df rest empty_streak
      else (Str.strip (str label), r) :: scan_labels df rest 0
  end.

Definition var_rows_of (df : DataFrame) (year_row : nat) : list (string * nat) :=
  scan_labels df (range (year_row + 2) (nrows df)) 0.

(** Lines 74-89: the inner loop over [zip(valid_years, valid_cols)] for one
    variable row. *)
Definition row_records (state : option string) (city : string)
    (df : DataFrame) (label : string) (r : nat) (cols : list (Z * nat))
  : list record :=
  flat_map
    (fun yc =>
       let val := iat df r (snd yc) in
       if isna val then []
       else [mk_record state city label (fst yc) val])
    cols.

Definition build_records (state : option string) (city : string)
    (df : DataFrame) (var_rows : list (string * nat)) (cols : list (Z * nat))
  : list record :=
  flat_map (fun lr => row_records state city df (fst lr) (snd lr) cols) var_rows.

(** Lines 18-89, on the file name and on the sheet that [read_excel]
    returns for it: the list [records]. *)
Definition tidy_records (path : string) (df : DataFrame)
  : result (list record) :=
  sc <- labels_of_name (name_no_ext path) ;;
  year_row <- find_year_row df ;;
  let raw_years := loc_row df year_row 4 in
  valid <- year_loop df year_row 0 raw_years [] [] ;;
  let var_rows := var_rows_of df year_row in
  Ok (build_records (fst sc) (snd sc) df var_rows
        (combine (fst valid) (snd valid))).

(** *** Line 91: [pd.DataFrame.from_records] *)

Definition INT64_MIN : Z := (- 2 ^ 63)%Z.
Definition INT64_MAX : Z := (2 ^ 63 - 1)%Z.
Definition UINT64_MAX : Z := (2 ^ 64 - 1)%Z.

(** The least int that the conversion to a C double rejects. *)
Definition FLOAT_OVERFLOW : Z := (2 ^ 1024 - 2 ^ 970)%Z.

(** The inference of [lib.maybe_convert_objects] on a column of objects,
    with what it has seen so far: does the column become float64?  Every
    int is first converted to a double, which overflows for a huge one; a
    text, any other object, an int outside 64 bits or a mix of negative
    ints and ints above [INT64_MAX] leave the column as it is, and so does
    a bool among numbers. *)
Fixpoint infer_float64 (vals : list cell) (float_ bool_ uint_ sint_ : bool)
  : result bool :=
  match vals with
  | [] => Ok (float_ && negb bool_)
  | x :: rest =>
      match x with
      | NaN | PFloat _ _ => infer_float64 rest true bool_ uint_ sint_
      | PBool _ => infer_float64 rest float_ true uint_ sint_
      | PInt z =>
          if (FLOAT_OVERFLOW <=? Z.abs z)%Z then Raise "OverflowError"
          else
            let uint_ := uint_ || (INT64_MAX <? z)%Z in
            let sint_ := sint_ || (z <? 0)%Z in
            if (uint_ && sint_) || (UINT64_MAX <? z)%Z || (z <? INT64_MIN)%Z
            then Ok false
            else infer_float64 rest float_ bool_ uint_ sint_
      | PStr _ _ | PObj _ => Ok false
      end
  end.

(** The value of a float64 column. *)
Definition to_float64 (x : cell) : frame_value :=
  match x with
  | PInt z => Float64 z
  | _ => Same x
  end.

(** The frame of the records: the columns of years and of values go
    through the inference, the year column holds ints only. *)
Definition from_records (records : list record) : result (list row) :=
  years_float <-
    infer_float64 (map (fun rec => PInt (year rec)) records)
                  false false false false ;;
  values_float <- infer_float64 (map value records) false false false false ;;
  Ok (map
        (fun rec =>
           mk_record (state rec) (city rec) (variable rec) (year rec)
                     (if values_float then to_float64 (value rec)
                      else Same (value rec)))
        records).

(** The function, on the file name and on the sheet that [read_excel]
    returns for it. *)
Definition tidy_from_file (path : string) (df : DataFrame)
  : result (list row) :=
  records <- tidy_records path df ;;
  from_records records.

(** ** The batch loop of [main] *)

(** Lines 109-116: a workbook whose extraction raises is skipped, an empty
    frame is not kept. *)
Definition main_frames (workbooks : list (string * DataFrame))
  : list (list row) :=
  fold_left
    (fun frames wb =>
       match tidy_from_file (fst wb) (snd wb) with
       | Ok df => match df with
                  | [] => frames
                  | _ :: _ => frames ++ [df]
                  end
       | Raise _ => frames
       end)
    workbooks [].

(** Lines 118-122: [pd.concat(frames)], or [sys.exit(1)] without frames.
    The table lists the rows of the frames in order, each as its own frame
    holds it. *)
Definition tidy_data (workbooks : list (string * DataFrame))
  : option (list row) :=
  match main_frames workbooks with
  | [] => None
  | frames => Some (List.concat frames)
  end.

(** ** Notions used by the statements *)

(** The cell holds a number. *)
Definition is_number (x : cell) : bool :=
  match x with
  | PInt _ | PFloat _ _ => true
  | NaN | PBool _ | PStr _ _ | PObj _ => false
  end.

(** The cell is blank or holds a zero. *)
Definition blank_or_zero (x : cell) : bool :=
  isna x || negb (ne_zero x).

(** Every cell of the column between two rows below the header and the
    smaller of worksheet row 28 and the last row is blank or zero. *)
Definition segment_blank_or_zero (df : DataFrame) (year_row col : nat) : Prop :=
  forall r, year_row + 2 <= r -> (Z.of_nat r <= end_idx df)%Z ->
            blank_or_zero (iat df r col) = true.

(** The test that lines 46-56 apply to a column. *)
Definition column_kept (df : DataFrame) (year_row col : nat) : bool :=
  negb (end_idx df <? Z.of_nat (year_row + 2))%Z &&
  has_data (loc_col df (year_row + 2) (Z.to_nat (end_idx df)) col).

(** The (variable row, year column) pairs at which the loop of lines 75-89
    appends a record, in the order of the appends. *)
Definition record_sources (df : DataFrame) (var_rows : list (string * nat))
    (cols : list (Z * nat)) : list ((string * nat) * (Z * nat)) :=
  flat_map
    (fun lr =>
       flat_map
         (fun yc => if isna (iat df (snd lr) (snd yc)) then [] else [(lr, yc)])
         cols)
    var_rows.

(** The record appended at such a pair. *)
Definition record_at (state : option string) (city : string) (df : DataFrame)
    (s : (string * nat) * (Z * nat)) : record :=
  mk_record state city (fst (fst s)) (fst (snd s))
            (iat df (snd (fst s)) (snd (snd s))).

(** The value is numeric. *)
Definition is_numeric (v : frame_value) : bool :=
  match v with
  | Same x => is_number x
  | Float64 _ => true
  end.

(** How the frame holds the value [x] of a record: as it is, or as the
    float of an int. *)
Definition coerced (x : cell) (v : frame_value) : Prop :=
  v = Same x \/ exists z, x = PInt z /\ v = Float64 z.

(** The row of the frame for a record. *)
Definition stored (rec : record) (r : row) : Prop :=
  state r = state rec /\ city r = city rec /\ variable r = variable rec /\
  year r = year rec /\ coerced (value rec) (value r).

(** The grouping key of a row. *)
Definition key_of {V : Type} (rec : record_of V)
  : option string * string * string * Z :=
  (state rec, city rec, variable rec, year rec).

(** What one workbook adds to the concatenated table. *)
Definition frame_of (wb : string * DataFrame) : list row :=
  match tidy_from_file (fst wb) (snd wb) with
  | Ok recs => recs
  | Raise _ => []
  end.

(** The labels of the variable rows are pairwise distinct and so are the
    years of the retained columns. *)
Definition distinct_within (df : DataFrame) : Prop :=
  forall year_row valid_years valid_cols,
    find_year_row df = Ok year_row ->
    year_loop df year_row 0 (loc_row df year_row 4) [] []
      = Ok (valid_years, valid_cols) ->
    NoDup (map fst (var_rows_of df year_row)) /\ NoDup valid_years.

(** The header cell of every year column with data converts to an integer. *)
Definition headers_convert (df : DataFrame) (year_row : nat) : Prop :=
  forall col, 4 <= col < ncols df -> isna (iat df year_row col) = false ->
              column_kept df year_row col = true ->
              exists y, py_int (iat df year_row col) = Ok y.

(** ** Sample worksheets *)

Definition header_row (years : list cell) : list cell :=
  [NaN; NaN; NaN; NaN] ++ years.

Definition data_row (label : cell) (vals : list cell) : list cell :=
  [label; NaN; NaN; NaN] ++ vals.

(** Header on worksheet row 6, variables on rows 8 to 30; the variable of
    row 30 has the value 0 for 2021. *)
Definition sheet_row30 : DataFrame :=
  repeat [] 5 ++ [header_row [PInt 2021]] ++ [[]] ++
  repeat (data_row (PStr "Revenue" None) [PInt 1]) 22 ++
  [data_row (PStr "Debt" None) [PInt 0]].

(** No year in column E. *)
Definition sheet_no_year : DataFrame :=
  [[]; header_row [PStr "Year" None]; []; data_row (PStr "Revenue" None) [PInt 7]].

(** A text cell under a year: the column of 2021 holds a text and keeps its
    ints, the column of 2020 holds numbers and blanks and is read as
    floats. *)
Definition sheet_text : DataFrame :=
  [header_row [PFloat (2020 # 1) "2020.0"; PInt 2021]; [];
   data_row (PStr "Revenue" None)
            [PFloat (7 # 1) "7.0"; PStr "restated" None]].

(** A year written as text over a column of ints, next to a column of
    floats: the text keeps the ints of its column as ints in the sheet. *)
Definition sheet_text_year : DataFrame :=
  [header_row [PFloat (2020 # 1) "2020.0"; PStr "2021" (Some 2021%Z)]; [];
   data_row (PStr "Revenue" None) [PFloat (3 # 2) "1.5"; PInt 7]].

(** A column of notes after the years. *)
Definition sheet_notes : DataFrame :=
  [[]; header_row [PInt 2020; PStr "Notes" None]; [];
   data_row (PStr "Revenue" None) [PInt 7; PStr "audited" None]].

(** The same label on two rows. *)
Definition sheet_twice : DataFrame :=
  [header_row [PInt 2020]; [];
   data_row (PStr "Revenue" None) [PInt 7];
   data_row (PStr "Revenue" None) [PInt 9]].

(** One variable, one year. *)
Definition sheet_small : DataFrame :=
  [header_row [PInt 2020]; []; data_row (PStr "Revenue" None) [PInt 7]].

(** A year column without data (2024) next to one with data. *)
Definition sheet_2024 : DataFrame :=
  [header_row [PInt 2023; PInt 2024]; [];
   data_row (PStr "Revenue" None) [PInt 7; PInt 0];
   data_row (PStr "Debt" None) [PInt 3; NaN]].

(** Five blank labels, then a labelled row. *)
Definition sheet_gap : DataFrame :=
  [header_row [PInt 2020]; [];
   data_row (PStr "Revenue" None) [PInt 7];
   []; data_row (PStr "  " None) []; []; []; [];
   data_row (PStr "Below" None) [PInt 9]].

(** Header on worksheet row 27. *)
Definition sheet_late : DataFrame :=
  repeat [] 26 ++ [header_row [PInt 2020]] ++ [[]] ++
  [data_row (PStr "Revenue" None) [PInt 7]].

(** ** Further notions *)

(** Five consecutive rows from [r0] with a blank label. *)
Definition blank_run (df : DataFrame) (r0 : nat) : Prop :=
  forall i, i < 5 -> blank_label (iat df (r0 + i) 0) = true.

(** The worksheet position of a visited pair, and the row-major order. *)
Definition position (s : (string * nat) * (Z * nat)) : nat * nat :=
  (snd (fst s), snd (snd s)).

Definition row_major (p q : nat * nat) : Prop :=
  fst p < fst q \/ (fst p = fst q /\ snd p < snd q).

(** ** [find_workbooks] and [main] on a file system *)

(** Lines 96-99, on the list that [glob.glob] returns: names of Excel lock
    files are dropped. *)
Definition find_workbooks (globbed : list string) : list string :=
  filter (fun p => negb (String.prefix "~$" (OsPath.basename p))) globbed.

(** [tidy_from_file] with its call of [pd.read_excel], which returns the
    sheet or raises. *)
Definition tidy_from_disk (read_excel : string -> result DataFrame)
    (path : string) : result (list row) :=
  sc <- labels_of_name (name_no_ext path) ;;
  df <- read_excel path ;;
  tidy_from_file path df.

(** Lines 102-124 of [main]: [None] stands for [sys.exit(1)], [Some] holds
    the table written to the CSV file. *)
Definition main (read_excel : string -> result DataFrame)
    (globbed : list string) : option (list row) :=
  let workbooks := find_workbooks globbed in
  match workbooks with
  | [] => None
  | _ :: _ =>
      let frames :=
        fold_left
          (fun frames wb =>
             match tidy_from_disk read_excel wb with
             | Ok df => match df with
                        | [] => frames
                        | _ :: _ => frames ++ [df]
                        end
             | Raise _ => frames
             end)
          workbooks [] in
      match frames with
      | [] => None
      | _ :: _ => Some (List.concat frames)
      end
  end.

(** The records a path adds to the table of [main]. *)
Definition disk_frame (read_excel : string -> result DataFrame)
    (path : string) : list row :=
  match tidy_from_disk read_excel path with
  | Ok recs => recs
  | Raise _ => []
  end.

(** ** [scraper/scrape_mymaps_sheets.py] *)

Module Scraper.

(** The class [[A-Za-z0-9_-]]. *)
Definition is_id_char (c : ascii) : bool :=
  let n := nat_of_ascii c in
  ((65 <=? n) && (n <=? 90)) || ((97 <=? n) && (n <=? 122)) ||
  ((48 <=? n) && (n <=? 57)) || (n =? 95) || (n =? 45).

(** The longest prefix in the class: what the greedy [[...]+] takes. *)
Fixpoint id_run (s : string) : string :=
  match s with
  | EmptyString => EmptyString
  | String c rest =>
      if is_id_char c then String c (id_run rest) else EmptyString
  end.

(** A match of [/d/([A-Za-z0-9_-]+)] at the start of [s]: its group 1. *)
Definition match_here (s : string) : option string :=
  match s with
  | String a (String b (String c t)) =>
      if ((a =? "/") && (b =? "d") && (c =? "/"))%char then
        match id_run t with
        | EmptyString => None
        | file_id => Some file_id
        end
      else None
  | _ => None
  end.

(** [re.search(r"/d/([A-Za-z0-9_-]+)", s)]: group 1 of the leftmost
    match. *)
Fixpoint search_file_id (s : string) : option string :=
  match s with
  | EmptyString => None
  | String _ rest =>
      match match_here s with
      | Some file_id => Some file_id
      | None => search_file_id rest
      end
  end.

(** Lines 98-106. *)
Definition to_excel_url (sheet_url : string) : result string :=
  match search_file_id sheet_url with
  | None => Raise "ValueError"
  | Some file_id =>
      Ok ("https://docs.google.com/spreadsheets/d/" ++ file_id
          ++ "/export?format=xlsx")%string
  end.

(** Lines 32-44. *)
Definition STATE_ABBR : list (string * string) :=
  [("alabama", "AL"); ("alaska", "AK"); ("arizona", "AZ"); ("arkansas", "AR");
   ("california", "CA"); ("colorado", "CO"); ("connecticut", "CT");
   ("delaware", "DE"); ("florida", "FL"); ("georgia", "GA"); ("hawaii", "HI");
   ("idaho", "ID"); ("illinois", "IL"); ("indiana", "IN"); ("iowa", "IA");
   ("kansas", "KS"); ("kentucky", "KY"); ("louisiana", "LA"); ("maine", "ME");
   ("maryland", "MD"); ("massachusetts", "MA"); ("michigan", "MI");
   ("minnesota", "MN"); ("mississippi", "MS"); ("missouri", "MO");
   ("montana", "MT"); ("nebraska", "NE"); ("nevada", "NV");
   ("new hampshire", "NH"); ("new jersey", "NJ"); ("new mexico", "NM");
   ("new york", "NY"); ("north carolina", "NC"); ("north dakota", "ND");
   ("ohio", "OH"); ("oklahoma", "OK"); ("oregon", "OR");
   ("pennsylvania", "PA"); ("rhode island", "RI"); ("south carolina", "SC");
   ("south dakota", "SD"); ("tennessee", "TN"); ("texas", "TX"); ("utah", "UT");
   ("vermont", "VT"); ("virginia", "VA"); ("washington", "WA");
   ("west virginia", "WV"); ("wisconsin", "WI"); ("wyoming", "WY")].

(** [d.get(key, default)] *)
Fixpoint dict_get (d : list (string * string)) (key default : string) : string :=
  match d with
  | [] => default
  | (k, v) :: rest => if (k =? key)%string then v else dict_get rest key default
  end.

(** [s.partition(sep)] for a one-character separator. *)
Fixpoint partition (sep : ascii) (s : string) : string * string * string :=
  match s with
  | EmptyString => (EmptyString, EmptyString, EmptyString)
  | String c rest =>
      if (c =? sep)%char then (EmptyString, String sep EmptyString, rest)
      else let '(before, found, after) := partition sep rest in
           (String c before, found, after)
  end.

Fixpoint string_map (f : ascii -> ascii) (s : string) : string :=
  match s with
  | EmptyString => EmptyString
  | String c rest => String (f c) (string_map f rest)
  end.

Fixpoint string_filter (f : ascii -> bool) (s : string) : string :=
  match s with
  | EmptyString => EmptyString
  | String c rest =>
      if f c then String c (string_filter f rest) else string_filter f rest
  end.

(** [s.lower()] and [s.upper()] on ASCII text. *)
Definition lower_char (c : ascii) : ascii :=
  let n := nat_of_ascii c in
  if (65 <=? n) && (n <=? 90) then ascii_of_nat (n + 32) else c.

Definition upper_char (c : ascii) : ascii :=
  let n := nat_of_ascii c in
  if (97 <=? n) && (n <=? 122) then ascii_of_nat (n - 32) else c.

Definition lower (s : string) : string := string_map lower_char s.
Definition upper (s : string) : string := string_map upper_char s.

(** The characters of [string.punctuation]. *)
Definition is_punct (c : ascii) : bool :=
  let n := nat_of_ascii c in
  ((33 <=? n) && (n <=? 47)) || ((58 <=? n) && (n <=? 64)) ||
  ((91 <=? n) && (n <=? 96)) || ((123 <=? n) && (n <=? 126)).

(** [s.translate(PUNCT_TBL)]: the punctuation is deleted. *)
Definition remove_punct (s : string) : string :=
  string_filter (fun c => negb (is_punct c)) s.

(** [s.replace(' ', '_')] *)
Definition spaces_to_underscores (s : string) : string :=
  string_map (fun c => if (c =? " ")%char then "_"%char else c) s.

(** [x or default] for strings. *)
Definition or_else (x default : string) : string :=
  match x with
  | EmptyString => default
  | _ => x
  end.

Definition is_ascii (s : string) : bool :=
  forallb (fun c => nat_of_ascii c <? 128) (list_ascii_of_string s).

Section SafeFilename.

(** [unicodedata.normalize("NFKD", s).encode("ascii", "ignore").decode()],
    the identity on ASCII text. *)
Variable nfkd_ascii : string -> string.

(** Lines 116-120: the state code. *)
Definition state_code (placemark_name : string) : string :=
  let '(city_part, _, state_part) := partition "," placemark_name in
  let state := lower (Str.strip state_part) in
  dict_get STATE_ABBR state (upper (or_else (Str.slice_to state 2) "XX")).

(** Lines 116-124: the city slug. *)
Definition city_slug (placemark_name : string) : string :=
  let '(city_part, _, state_part) := partition "," placemark_name in
  let city := Str.strip city_part in
  let city_ascii := nfkd_ascii city in
  or_else (spaces_to_underscores (remove_punct city_ascii)) "UnknownCity".

(** Lines 111-126. *)
Definition safe_filename (placemark_name : string) : string :=
  let abbrev := state_code placemark_name in
  let city_clean := city_slug placemark_name in
  (abbrev ++ "_" ++ city_clean ++ ".xlsx")%string.

End SafeFilename.

(** On ASCII text the normalisation changes nothing. *)
Definition ascii_only (s : string) : string :=
  string_filter (fun c => nat_of_ascii c <? 128) s.

End Scraper.

(** ** [dashboard/app.py] *)

Module Dashboard.

(** Lines 58-66. *)
Definition INDICATORS : list string :=
  ["Net Financial Position"; "Financial Assets-to-Liabilities";
   "Assets-to-Liabilities"; "Net Debt-to-Total Revenues";
   "Interest-to-Total Revenues"; "Net Book-to-Cost of TCA";
   "Govt Transfers-to-Total Revenues"].

(** An entry of [ARROW_META] (lines 68-76): bottom, top, invert. *)
Definition ARROW_META : list (string * (string * string * bool)) :=
  [("Net Financial Position", ("Less sustainable", "More sustainable", false));
   ("Financial Assets-to-Liabilities",
    ("Less sustainable", "More sustainable", false));
   ("Assets-to-Liabilities", ("Less sustainable", "More sustainable", false));
   ("Net Debt-to-Total Revenues",
    ("More sustainable", "Less sustainable", true));
   ("Interest-to-Total Revenues", ("More flexible", "Less flexible", true));
   ("Net Book-to-Cost of TCA", ("More flexible", "Less flexible", true));
   ("Govt Transfers-to-Total Revenues",
    ("Less vulnerable", "More Vulnerable", false))].

(** [x in l] and [series.isin(l)] on strings. *)
Definition mem (x : string) (l : list string) : bool :=
  existsb (fun y => (y =? x)%string) l.

(** [isin] on the state column, where a missing state is NaN. *)
Definition state_isin (st : option string) (states : list string) : bool :=
  match st with
  | Some s => mem s states
  | None => false
  end.

(** [series.unique()]: the values in the order of their first
    occurrence. *)
Fixpoint unique (l : list string) : list string :=
  match l with
  | [] => []
  | x :: rest => x :: filter (fun y => negb (y =? x)%string) (unique rest)
  end.

(** [sorted(l)] on strings. *)
Fixpoint insert_sorted (x : string) (l : list string) : list string :=
  match l with
  | [] => [x]
  | y :: rest =>
      if String.leb x y then x :: y :: rest else y :: insert_sorted x rest
  end.

Fixpoint sorted (l : list string) : list string :=
  match l with
  | [] => []
  | x :: rest => insert_sorted x (sorted rest)
  end.

(** Line 83: the rows of the indicators. *)
Definition load (df_raw : list record) : list record :=
  filter (fun row => mem (variable row) INDICATORS) df_raw.

(** Lines 136-143, on the table [df]: the options as (label, value)
    pairs.  An absent or empty selection of states is the empty list. *)
Definition update_city_options (df : list record) (states : list string)
  : list (string * string) :=
  let all_cities := sorted (unique (map city df)) in
  match states with
  | [] => map (fun c => (c, c)) all_cities
  | _ :: _ =>
      let top :=
        sorted (unique (map city
                          (filter (fun row => state_isin (state row) states)
                                  df))) in
      let ordered := top ++ filter (fun c => negb (mem c top)) all_cities in
      map (fun c => (if mem c top then (c ++ " *")%string else c, c)) ordered
  end.

(** [x or []] *)
Definition or_nil (x : option (list string)) : list string :=
  match x with
  | Some l => l
  | None => []
  end.

(** Lines 147-148: the stored filters, states and cities. *)
Definition sync_filter_state (state_sel city_sel : option (list string))
  : list string * list string :=
  (or_nil state_sel, or_nil city_sel).

(** Lines 157-169. *)
Definition city_subset (df : list record)
    (filters : option (list string * list string)) : list string :=
  let states := match filters with Some f => fst f | None => [] end in
  let cities := match filters with Some f => snd f | None => [] end in
  match states, cities with
  | [], [] => sorted (unique (map city df))
  | _, _ :: _ => cities
  | _ :: _, [] => []
  end.

(** Line 171: the rows that are plotted. *)
Definition page_rows (df : list record) (indicator : string)
    (filters : option (list string * list string)) : list record :=
  filter
    (fun row =>
       (variable row =? indicator)%string &&
       mem (city row) (city_subset df filters))
    df.

(** [d[key]] *)
Fixpoint dict_item {V : Type} (d : list (string * V)) (key : string)
  : result V :=
  match d with
  | [] => Raise "KeyError"
  | (k, v) :: rest => if (k =? key)%string then Ok v else dict_item rest key
  end.

(** What [render_page] (lines 156-205) puts on the page. *)
Record page : Type := mk_page {
  plotted : list record;      (* the rows of the line chart *)
  no_data : bool;            (* the annotation "No data for selected filters" *)
  top_label : string;
  bottom_label : string;
  inverted : bool            (* the class [spectrum-vert invert] *)
}.

Definition render_page (df : list record) (indicator : string)
    (filters : option (list string * list string)) : result page :=
  let sub := page_rows df indicator filters in
  meta <- dict_item ARROW_META indicator ;;
  Ok (mk_page sub (match sub with [] => true | _ :: _ => false end)
              (snd (fst meta)) (fst (fst meta)) (snd meta)).

End Dashboard.

(** A small table for the dashboard. *)
Definition sample_table : list record :=
  [mk_record (Some "AZ") "Mesa" "Net Financial Position" 2020 (PInt 7);
   mk_record (Some "NY") "Albany" "Net Financial Position" 2020 (PInt 5);
   mk_record (Some "AZ") "Yuma" "Assets-to-Liabilities" 2021 (PInt 2);
   mk_record None "Brandon" "Net Financial Position" 2021 (PInt 1)].

(** A table in which every row has a state. *)
Definition stated_table : list record :=
  [mk_record (Some "AZ") "Mesa" "Net Financial Position" 2020
     (PFloat (7 # 2) "3.5");
   mk_record (Some "NY") "Albany" "Net Financial Position" 2020
     (PFloat (5 # 1) "5.0");
   mk_record (Some "AZ") "Yuma" "Assets-to-Liabilities" 2021
     (PFloat (2 # 1) "2.0");
   mk_record (Some "AZ") "Mesa" "Total Revenues" 2020
     (PFloat (9 # 1) "9.0");
   mk_record (Some "MB") "Brandon" "Net Financial Position" 2021
     (PFloat (1 # 1) "1.0")].

(** * Properties *)

(** ** Strings and file names *)

Example basename_ex :
  OsPath.basename "/data/xls/AZ_Bullhead_City.xlsx" = "AZ_Bullhead_City.xlsx".
Proof. reflexivity. Qed.

Example splitext_ex :
  OsPath.splitext "AZ_Bullhead_City.xlsx" = ("AZ_Bullhead_City", ".xlsx") /\
  OsPath.splitext "..hidden" = ("..hidden", "") /\
  OsPath.splitext "a.b/c" = ("a.b/c", "").
Proof. repeat split. Qed.

Example str_ex :
  str (PInt 0) = "0" /\ str (PInt 2021) = "2021" /\ str (PInt (-7)) = "-7".
Proof. repeat split. Qed.

Example strip_ex : Str.strip "  Net  debt " = "Net  debt".
Proof. reflexivity. Qed.

Example py_int_ex :
  py_int (PStr " 20_21 " (Some 2021%Z)) = Ok 2021%Z /\
  py_int (PStr "2021.0" None) = Raise "ValueError" /\
  py_int (PObj "2021-12-31 00:00:00") = Raise "TypeError" /\
  py_int (PFloat (4041 # 2) "2020.5") = Ok 2020%Z /\
  py_int (PFloat (-3 # 2) "-1.5") = Ok (-1)%Z.
Proof. repeat split. Qed.

Lemma split1_contains (c : ascii) (s : string) :
  Str.contains c s = true -> exists a b, Str.split1 c s = [a; b].
Proof.
  induction s as [|x s IH]; simpl; [discriminate|].
  destruct (x =? c)%char; simpl.
  - intros _. eauto.
  - intros H. destruct (IH H) as (a & b & E). rewrite E. eauto.
Qed.

Lemma split1_first (c : ascii) (a b : string) :
  Str.contains c a = false ->
  Str.split1 c (a ++ String c b)%string = [a; b].
Proof.
  induction a as [|x a IH]; simpl.
  - intros _. now rewrite Ascii.eqb_refl.
  - intros H. apply orb_false_iff in H as [Hx Ha].
    rewrite Hx, (IH Ha). reflexivity.
Qed.

Lemma contains_app (c : ascii) (a b : string) :
  Str.contains c (a ++ String c b)%string = true.
Proof.
  induction a as [|x a IH]; simpl.
  - now rewrite Ascii.eqb_refl.
  - rewrite IH. apply orb_true_r.
Qed.

Lemma labels_of_name_total (name : string) :
  exists sc, labels_of_name name = Ok sc.
Proof.
  unfold labels_of_name.
  destruct (Str.contains "_" name) eqn:E; [|eauto].
  destruct (split1_contains _ _ E) as (a & b & ->). eauto.
Qed.

(** ** Lists *)

Lemma combine_snoc {A B : Type} (l : list A) (l' : list B) (a : A) (b : B) :
  List.length l = List.length l' ->
  combine (l ++ [a]) (l' ++ [b]) = combine l l' ++ [(a, b)].
Proof.
  revert l'. induction l as [|x l IH]; intros [|y l'] E; simpl in *;
    try discriminate; [reflexivity|].
  f_equal. apply IH. now injection E.
Qed.

Lemma in_combine_snd {A B : Type} (l : list A) (l' : list B) (b : B) :
  List.length l = List.length l' ->
  In b l' -> exists a, In (a, b) (combine l l').
Proof.
  revert l'. induction l as [|x l IH]; intros [|y l'] E Hin; simpl in *;
    try discriminate; [contradiction|].
  destruct Hin as [->|Hin]; [eauto|].
  destruct (IH l' ltac:(now injection E) Hin) as [a Ha]. eauto.
Qed.

Lemma NoDup_fst_combine {A B : Type} (l : list A) (l' : list B) :
  NoDup l -> NoDup (map fst (combine l l')).
Proof.
  revert l'. induction l as [|x l IH]; intros l' H; [constructor|].
  destruct l' as [|y l']; [constructor|].
  apply NoDup_cons_iff in H as [Hx Hl]. simpl. constructor; [|now apply IH].
  intros Hin. apply in_map_iff in Hin as ([a b] & Ea & Hab). simpl in Ea. subst a.
  apply in_combine_l in Hab. contradiction.
Qed.

Lemma NoDup_flat_map {A B : Type} (f : A -> list B) (l : list A) :
  NoDup l ->
  (forall a, In a l -> NoDup (f a)) ->
  (forall a a' b, In a l -> In a' l -> In b (f a) -> In b (f a') -> a = a') ->
  NoDup (flat_map f l).
Proof.
  induction l as [|x l IH]; intros Hl Hf Hdisj; simpl; [constructor|].
  apply NoDup_cons_iff in Hl as [Hx Hl].
  apply NoDup_app.
  - apply Hf. now left.
  - apply IH; [assumption| |].
    + intros a Ha. apply Hf. now right.
    + intros a a' b Ha Ha'. apply Hdisj; now right.
  - intros b Hb Hb'. apply in_flat_map in Hb' as (a' & Ha' & Hba').
    assert (x = a') by (apply (Hdisj x a' b); simpl; auto).
    subst a'. contradiction.
Qed.

Lemma in_range (a b r : nat) : In r (range a b) <-> a <= r < b.
Proof. unfold range. rewrite in_seq. lia. Qed.

(** ** Header detection *)

Lemma find_year_row_ok (df : DataFrame) (year_row : nat) :
  find_year_row df = Ok year_row ->
  5 <= ncols df /\ year_row < nrows df /\
  is_year_value (iat df year_row 4) = true.
Proof.
  unfold find_year_row. destruct (ncols df <? 5) eqn:W; [discriminate|].
  apply Nat.ltb_ge in W.
  destruct (find _ _) as [r|] eqn:F; [|discriminate].
  intros [= <-]. apply find_some in F as [Hin Hy].
  apply in_range in Hin. repeat split; [assumption|lia|assumption].
Qed.

Lemma find_year_row_none (df : DataFrame) :
  (forall r, r < nrows df -> is_year_value (iat df r 4) = false) ->
  find_year_row df = Raise (if ncols df <? 5 then "KeyError" else "IndexError").
Proof.
  intros H. unfold find_year_row. destruct (ncols df <? 5); [reflexivity|].
  destruct (find _ _) as [r|] eqn:F; [|reflexivity].
  apply find_some in F as [Hin Hy]. apply in_range in Hin.
  rewrite H in Hy by lia. discriminate.
Qed.

(** ** Year columns *)

Lemma year_loop_cons (df : DataFrame) (year_row offset : nat) (yr : cell)
    (rest : list cell) (valid_years : list Z) (valid_cols : list nat) :
  year_loop df year_row offset (yr :: rest) valid_years valid_cols =
  if isna yr || negb (column_kept df year_row (4 + offset)) then
    year_loop df year_row (S offset) rest valid_years valid_cols
  else
    y <- py_int yr ;;
    year_loop df year_row (S offset) rest
      (valid_years ++ [y]) (valid_cols ++ [4 + offset]).
Proof.
  cbn [year_loop]. unfold column_kept.
  destruct (isna yr); [reflexivity|].
  destruct (end_idx df <? Z.of_nat (year_row + 2))%Z; [reflexivity|].
  destruct (has_data _); reflexivity.
Qed.

(** What the loop has appended when it ends without raising. *)
Lemma year_loop_inv (df : DataFrame) (year_row : nat) :
  forall raw offset vy vc vy' vc',
    year_loop df year_row offset raw vy vc = Ok (vy', vc') ->
    List.length vy = List.length vc ->
    List.length vy' = List.length vc' /\
    (forall y col,
        In (y, col) (combine vy' vc') <->
        In (y, col) (combine vy vc) \/
        exists k c, nth_error raw k = Some c /\ col = 4 + offset + k /\
                    isna c = false /\ column_kept df year_row col = true /\
                    py_int c = Ok y) /\
    (forall k c, nth_error raw k = Some c -> isna c = false ->
                 column_kept df year_row (4 + offset + k) = true ->
                 exists y, py_int c = Ok y).
Proof.
  induction raw as [|yr rest IH]; intros offset vy vc vy' vc' H L.
  - simpl in H. injection H as <- <-. split; [assumption|]. split.
    + intros y col. split; [auto|].
      intros [?|(k & c & E & _)]; [assumption|]. destruct k; discriminate.
    + intros k c E. destruct k; discriminate.
  - rewrite year_loop_cons in H.
    destruct (isna yr || negb (column_kept df year_row (4 + offset))) eqn:Skip.
    + destruct (IH _ _ _ _ _ H L) as (L' & Hin & Hint). split; [assumption|].
      split.
      * intros y col. rewrite Hin. split.
        -- intros [?|(k & c & E & -> & ?)]; [now left|right].
           exists (S k), c. split; [assumption|]. split; [lia|assumption].
        -- intros [?|(k & c & E & -> & Hna & Hk & Hi)]; [now left|].
           destruct k as [|k]; simpl in E.
           ++ injection E as ->. rewrite Nat.add_0_r in Hk.
              rewrite Hna, Hk in Skip. discriminate.
           ++ right. exists k, c. split; [assumption|]. split; [lia|].
              now replace (4 + S offset + k) with (4 + offset + S k) by lia.
      * intros k c E Hna Hk. destruct k as [|k]; simpl in E.
        -- injection E as ->. rewrite Nat.add_0_r in Hk.
           rewrite Hna, Hk in Skip. discriminate.
        -- apply (Hint k c E Hna).
           now replace (4 + S offset + k) with (4 + offset + S k) by lia.
    + apply orb_false_iff in Skip as [Hna0 Hk0].
      apply negb_false_iff in Hk0.
      destruct (py_int yr) as [y0|e] eqn:Ey; simpl in H; [|discriminate].
      assert (L0 : List.length (vy ++ [y0]) = List.length (vc ++ [4 + offset]))
        by (rewrite !length_app; simpl; lia).
      destruct (IH _ _ _ _ _ H L0) as (L' & Hin & Hint). split; [assumption|].
      split.
      * intros y col. rewrite Hin, combine_snoc, in_app_iff by assumption.
        simpl. split.
        -- intros [[?|[[= <- <-]|[]]]|(k & c & E & -> & ?)].
           ++ now left.
           ++ right. exists 0, yr. rewrite Nat.add_0_r. auto.
           ++ right. exists (S k), c. split; [assumption|].
              split; [lia|assumption].
        -- intros [?|(k & c & E & -> & Hna & Hk & Hi)]; [now left; left|].
           destruct k as [|k]; simpl in E.
           ++ injection E as ->. left. right. left.
              rewrite Ey in Hi. injection Hi as ->. f_equal. lia.
           ++ right. exists k, c. split; [assumption|]. split; [lia|].
              now replace (4 + S offset + k) with (4 + offset + S k) by lia.
      * intros k c E Hna Hk. destruct k as [|k]; simpl in E.
        -- injection E as ->. eauto.
        -- apply (Hint k c E Hna).
           now replace (4 + S offset + k) with (4 + offset + S k) by lia.
Qed.

Lemma nth_error_range (a b k : nat) :
  nth_error (range a b) k = if k <? b - a then Some (a + k) else None.
Proof.
  unfold range. generalize (b - a) as n. revert a.
  induction k as [|k IH]; intros a [|n]; simpl; try reflexivity.
  - now rewrite Nat.add_0_r.
  - rewrite IH. change (S k <? S n) with (k <? n).
    destruct (k <? n); [f_equal; lia|reflexivity].
Qed.

Lemma nth_error_loc_row (df : DataFrame) (r c0 k : nat) (c : cell) :
  nth_error (loc_row df r c0) k = Some c <->
  c0 + k < ncols df /\ c = iat df r (c0 + k).
Proof.
  unfold loc_row. rewrite nth_error_map, nth_error_range.
  destruct (k <? ncols df - c0) eqn:E; simpl.
  - apply Nat.ltb_lt in E. split.
    + intros [= <-]. split; [lia|reflexivity].
    + intros [_ ->]. reflexivity.
  - apply Nat.ltb_ge in E. split; [discriminate|]. intros [? _]. lia.
Qed.

Lemma blank_or_zero_negb (x : cell) :
  blank_or_zero x = negb (notna x && ne_zero x).
Proof. unfold blank_or_zero, notna. now destruct (isna x), (ne_zero x). Qed.

(** The test of the code on a column is the negation of the condition in
    the words of the specification. *)
Lemma column_kept_false_iff (df : DataFrame) (year_row col : nat) :
  column_kept df year_row col = false <-> segment_blank_or_zero df year_row col.
Proof.
  unfold column_kept, segment_blank_or_zero, has_data, loc_col.
  destruct (end_idx df <? Z.of_nat (year_row + 2))%Z eqn:E; simpl.
  - apply Z.ltb_lt in E. split; [|reflexivity]. intros _ r Hr Hr'. lia.
  - apply Z.ltb_ge in E. split.
    + intros H r Hr Hr'. rewrite blank_or_zero_negb.
      apply negb_true_iff.
      destruct (notna (iat df r col) && ne_zero (iat df r col)) eqn:D;
        [|reflexivity].
      assert (X : existsb (fun x => notna x && ne_zero x)
                    (map (fun r => iat df r col)
                       (range (year_row + 2) (S (Z.to_nat (end_idx df)))))
                  = true).
      { apply existsb_exists. exists (iat df r col). split; [|assumption].
        apply in_map_iff. exists r. split; [reflexivity|].
        apply in_range. lia. }
      rewrite X in H. discriminate.
    + intros H.
      destruct (existsb _ _) eqn:X; [|reflexivity].
      apply existsb_exists in X as (x & Hx & D).
      apply in_map_iff in Hx as (r & <- & Hr). apply in_range in Hr.
      specialize (H r ltac:(lia) ltac:(lia)).
      rewrite blank_or_zero_negb, D in H. discriminate.
Qed.

(** The year columns that the loop of [tidy_from_file] retains. *)
Lemma valid_cols_spec (df : DataFrame) (year_row : nat)
    (valid_years : list Z) (valid_cols : list nat) :
  year_loop df year_row 0 (loc_row df year_row 4) [] []
    = Ok (valid_years, valid_cols) ->
  List.length valid_years = List.length valid_cols /\
  (forall y col,
      In (y, col) (combine valid_years valid_cols) <->
      4 <= col < ncols df /\ isna (iat df year_row col) = false /\
      column_kept df year_row col = true /\
      py_int (iat df year_row col) = Ok y) /\
  (forall col,
      4 <= col < ncols df -> isna (iat df year_row col) = false ->
      column_kept df year_row col = true ->
      exists y, In (y, col) (combine valid_years valid_cols)).
Proof.
  intros H. destruct (year_loop_inv _ _ _ _ _ _ _ _ H eq_refl) as (L & Hin & Hint).
  split; [assumption|].
  assert (Hiff : forall y col,
      In (y, col) (combine valid_years valid_cols) <->
      4 <= col < ncols df /\ isna (iat df year_row col) = false /\
      column_kept df year_row col = true /\
      py_int (iat df year_row col) = Ok y).
  { intros y col. rewrite Hin. simpl. split.
    - intros [[]|(k & c & E & -> & Hna & Hk & Hi)].
      apply nth_error_loc_row in E as [Hlt ->].
      replace (4 + 0 + k) with (4 + k) in * by lia.
      repeat split; try assumption; lia.
    - intros (Hc & Hna & Hk & Hi). right.
      exists (col - 4), (iat df year_row col). split.
      + apply nth_error_loc_row. replace (4 + (col - 4)) with col by lia.
        split; [lia|reflexivity].
      + split; [lia|auto]. }
  split; [assumption|].
  intros col Hc Hna Hk.
  destruct (Hint (col - 4) (iat df year_row col)) as [y Hy].
  - apply nth_error_loc_row. replace (4 + (col - 4)) with col by lia.
    split; [lia|reflexivity].
  - assumption.
  - now replace (4 + 0 + (col - 4)) with col by lia.
  - exists y. apply Hiff. auto.
Qed.

Lemma in_valid_cols (valid_years : list Z) (valid_cols : list nat) (col : nat) :
  List.length valid_years = List.length valid_cols ->
  In col valid_cols <-> exists y, In (y, col) (combine valid_years valid_cols).
Proof.
  intros L. split.
  - now apply in_combine_snd.
  - intros [y Hy]. now apply in_combine_r in Hy.
Qed.

(** ** Variable rows *)

Lemma scan_labels_cons (df : DataFrame) (r : nat) (rest : list nat)
    (empty_streak : nat) :
  scan_labels df (r :: rest) empty_streak =
  if blank_label (iat df r 0) then
    if 5 <=? S empty_streak then [] else scan_labels df rest (S empty_streak)
  else (Str.strip (str (iat df r 0)), r) :: scan_labels df rest 0.
Proof. reflexivity. Qed.

Lemma scan_labels_in (df : DataFrame) :
  forall rows empty_streak label r,
    In (label, r) (scan_labels df rows empty_streak) ->
    In r rows /\ blank_label (iat df r 0) = false /\
    label = Str.strip (str (iat df r 0)).
Proof.
  induction rows as [|r0 rows IH]; intros s label r H;
    [simpl in H; contradiction|].
  rewrite scan_labels_cons in H.
  destruct (blank_label (iat df r0 0)) eqn:B.
  - destruct (5 <=? S s); [contradiction|].
    destruct (IH _ _ _ H) as (? & ? & ?). simpl. auto.
  - destruct H as [[= <- <-]|H]; [simpl; auto|].
    destruct (IH _ _ _ H) as (? & ? & ?). simpl. auto.
Qed.

(** A run of blank labels that brings the streak to five ends the scan. *)
Lemma scan_labels_blank_run (df : DataFrame) :
  forall n a empty_streak k,
    5 <= empty_streak + k -> 1 <= k ->
    (forall i, i < k -> blank_label (iat df (a + i) 0) = true) ->
    scan_labels df (seq a n) empty_streak = [].
Proof.
  induction n as [|n IH]; intros a s k Hs Hk Hb; [reflexivity|].
  cbn [seq]. rewrite scan_labels_cons.
  rewrite <- (Nat.add_0_r a) at 1. rewrite (Hb 0) by lia.
  destruct (5 <=? S s) eqn:E; [reflexivity|].
  apply Nat.leb_gt in E.
  apply (IH (S a) (S s) (k - 1)); [lia|lia|].
  intros i Hi. replace (S a + i) with (a + S i) by lia. apply Hb. lia.
Qed.

Lemma scan_labels_before_run (df : DataFrame) (r0 : nat) :
  (forall i, i < 5 -> blank_label (iat df (r0 + i) 0) = true) ->
  forall n a empty_streak label r,
    a <= r0 ->
    In (label, r) (scan_labels df (seq a n) empty_streak) -> r < r0.
Proof.
  intros Hb. induction n as [|n IH]; intros a s label r Ha H;
    [simpl in H; contradiction|].
  destruct (Nat.eq_dec a r0) as [->|Hne].
  - rewrite (scan_labels_blank_run df (S n) r0 s 5) in H; [contradiction| | |];
      [lia|lia|assumption].
  - cbn [seq] in H. rewrite scan_labels_cons in H.
    destruct (blank_label (iat df a 0)).
    + destruct (5 <=? S s); [contradiction|].
      apply (IH (S a) (S s) label r); [lia|assumption].
    + destruct H as [[= <- <-]|H]; [lia|].
      apply (IH (S a) 0 label r); [lia|assumption].
Qed.

Lemma var_rows_in (df : DataFrame) (year_row : nat) (label : string) (r : nat) :
  In (label, r) (var_rows_of df year_row) ->
  year_row + 2 <= r < nrows df /\ blank_label (iat df r 0) = false /\
  label = Str.strip (str (iat df r 0)).
Proof.
  unfold var_rows_of. intros H. apply scan_labels_in in H as (Hr & ? & ?).
  apply in_range in Hr. auto.
Qed.

(** ** Records *)

Lemma build_records_sources (st : option string) (ci : string)
    (df : DataFrame) (var_rows : list (string * nat)) (cols : list (Z * nat)) :
  build_records st ci df var_rows cols =
  map (record_at st ci df) (record_sources df var_rows cols).
Proof.
  unfold build_records, record_sources.
  induction var_rows as [|lr var_rows IH]; simpl; [reflexivity|].
  rewrite map_app, IH. f_equal. clear IH. unfold row_records.
  induction cols as [|yc cols IHc]; simpl; [reflexivity|].
  rewrite map_app, IHc. f_equal.
  destruct (isna (iat df (snd lr) (snd yc))); reflexivity.
Qed.

Lemma in_record_sources (df : DataFrame) (var_rows : list (string * nat))
    (cols : list (Z * nat)) (s : (string * nat) * (Z * nat)) :
  In s (record_sources df var_rows cols) <->
  In (fst s) var_rows /\ In (snd s) cols /\
  isna (iat df (snd (fst s)) (snd (snd s))) = false.
Proof.
  unfold record_sources. rewrite in_flat_map. split.
  - intros (lr & Hlr & H). apply in_flat_map in H as (yc & Hyc & H).
    destruct (isna (iat df (snd lr) (snd yc))) eqn:E; [contradiction|].
    destruct H as [<-|[]]. simpl. auto.
  - intros (Hlr & Hyc & E). exists (fst s). split; [assumption|].
    apply in_flat_map. exists (snd s). split; [assumption|].
    rewrite E. left. now destruct s.
Qed.

(** The steps of a call that reaches line 91. *)
Lemma tidy_records_ok (path : string) (df : DataFrame) (recs : list record) :
  tidy_records path df = Ok recs ->
  exists sc year_row valid_years valid_cols,
    labels_of_name (name_no_ext path) = Ok sc /\
    find_year_row df = Ok year_row /\
    year_loop df year_row 0 (loc_row df year_row 4) [] []
      = Ok (valid_years, valid_cols) /\
    recs = build_records (fst sc) (snd sc) df (var_rows_of df year_row)
             (combine valid_years valid_cols).
Proof.
  unfold tidy_records.
  destruct (labels_of_name (name_no_ext path)) as [sc|e] eqn:El; simpl;
    [|discriminate].
  destruct (find_year_row df) as [year_row|e] eqn:Eh; simpl; [|discriminate].
  destruct (year_loop _ _ _ _ _ _) as [[vy vc]|e] eqn:Ey; simpl; [|discriminate].
  intros [= <-]. exists sc, year_row, vy, vc. repeat split; auto.
Qed.

Lemma year_loop_total (df : DataFrame) (year_row : nat) :
  forall raw offset vy vc,
    (forall k c, nth_error raw k = Some c -> isna c = false ->
                 column_kept df year_row (4 + offset + k) = true ->
                 exists y, py_int c = Ok y) ->
    exists vy' vc', year_loop df year_row offset raw vy vc = Ok (vy', vc').
Proof.
  induction raw as [|yr rest IH]; intros offset vy vc H; [simpl; eauto|].
  rewrite year_loop_cons.
  assert (Hrest : forall k c, nth_error rest k = Some c -> isna c = false ->
                    column_kept df year_row (4 + S offset + k) = true ->
                    exists y, py_int c = Ok y).
  { intros k c E Hna Hk. apply (H (S k) c E Hna).
    now replace (4 + offset + S k) with (4 + S offset + k) by lia. }
  destruct (isna yr || negb (column_kept df year_row (4 + offset))) eqn:Skip;
    [now apply IH|].
  apply orb_false_iff in Skip as [Hna Hk]. apply negb_false_iff in Hk.
  destruct (H 0 yr eq_refl Hna) as [y ->];
    [now rewrite Nat.add_0_r|]. simpl. now apply IH.
Qed.

Lemma year_loop_headers_convert (df : DataFrame) (year_row : nat) :
  headers_convert df year_row ->
  exists vy vc,
    year_loop df year_row 0 (loc_row df year_row 4) [] [] = Ok (vy, vc).
Proof.
  intros H. apply year_loop_total. intros k c E Hna Hk.
  apply nth_error_loc_row in E as [Hlt ->].
  replace (4 + 0 + k) with (4 + k) in Hk by lia.
  apply H; [lia|assumption|assumption].
Qed.

Lemma year_loop_skip_all (df : DataFrame) (year_row : nat) :
  (forall col, column_kept df year_row col = false) ->
  forall raw offset vy vc,
    year_loop df year_row offset raw vy vc = Ok (vy, vc).
Proof.
  intros H. induction raw as [|yr rest IH]; intros offset vy vc;
    [reflexivity|].
  rewrite year_loop_cons, H, orb_true_r. apply IH.
Qed.

Lemma build_records_no_cols (st : option string) (ci : string)
    (df : DataFrame) (var_rows : list (string * nat)) :
  build_records st ci df var_rows [] = [].
Proof.
  unfold build_records. induction var_rows as [|lr var_rows IH];
    [reflexivity|]. simpl. assumption.
Qed.

(** Every record of [records] was appended at a visited pair. *)
Lemma tidy_record_source (path : string) (df : DataFrame)
    (recs : list record) (rec : record) :
  tidy_records path df = Ok recs -> In rec recs ->
  exists sc year_row valid_years valid_cols s,
    labels_of_name (name_no_ext path) = Ok sc /\
    find_year_row df = Ok year_row /\
    year_loop df year_row 0 (loc_row df year_row 4) [] []
      = Ok (valid_years, valid_cols) /\
    In s (record_sources df (var_rows_of df year_row)
            (combine valid_years valid_cols)) /\
    rec = record_at (fst sc) (snd sc) df s.
Proof.
  intros H Hin.
  destruct (tidy_records_ok _ _ _ H) as (sc & yr & vy & vc & El & Eh & Ey & ->).
  rewrite build_records_sources in Hin.
  apply in_map_iff in Hin as (s & <- & Hs).
  exists sc, yr, vy, vc, s. auto.
Qed.

(** ** The frame *)

Lemma from_records_map (recs : list record) (rows : list row) :
  from_records recs = Ok rows ->
  exists values_float : bool,
    rows = map
             (fun rec =>
                mk_record (state rec) (city rec) (variable rec) (year rec)
                          (if values_float then to_float64 (value rec)
                           else Same (value rec)))
             recs.
Proof.
  unfold from_records.
  match goal with
  | |- context [infer_float64 ?l false false false false] =>
      destruct (infer_float64 l false false false false) as [yf|e]
  end; simpl; [|discriminate].
  match goal with
  | |- context [infer_float64 ?l false false false false] =>
      destruct (infer_float64 l false false false false) as [vf|e]
  end; simpl; [|discriminate].
  intros [= <-]. now exists vf.
Qed.

Lemma to_float64_coerced (x : cell) (values_float : bool) :
  coerced x (if values_float then to_float64 x else Same x).
Proof.
  destruct values_float; [|now left].
  destruct x; simpl; try (now left). right. eauto.
Qed.

(** The frame holds one row for each record, in the order of the records. *)
Lemma from_records_stored (recs : list record) (rows : list row) :
  from_records recs = Ok rows -> Forall2 stored recs rows.
Proof.
  intros H. apply from_records_map in H as [vf ->].
  induction recs as [|rec recs IH]; simpl; constructor; [|assumption].
  unfold stored. simpl. repeat split. apply to_float64_coerced.
Qed.

Lemma from_records_in (recs : list record) (rows : list row) (r : row) :
  from_records recs = Ok rows -> In r rows ->
  exists rec, In rec recs /\ stored rec r.
Proof.
  intros H Hin. apply from_records_map in H as [vf ->].
  apply in_map_iff in Hin as (rec & <- & Hrec). exists rec.
  split; [assumption|]. unfold stored. simpl. repeat split.
  apply to_float64_coerced.
Qed.

Lemma from_records_in_rev (recs : list record) (rows : list row)
    (rec : record) :
  from_records recs = Ok rows -> In rec recs ->
  exists r, In r rows /\ stored rec r.
Proof.
  intros H Hin. apply from_records_map in H as [vf ->].
  eexists. split; [apply in_map; exact Hin|].
  unfold stored. simpl. repeat split. apply to_float64_coerced.
Qed.

Lemma from_records_keys (recs : list record) (rows : list row) :
  from_records recs = Ok rows -> map key_of rows = map key_of recs.
Proof.
  intros H. apply from_records_map in H as [vf ->].
  rewrite map_map. apply map_ext. reflexivity.
Qed.

(** The steps of a call of [tidy_from_file] that returns. *)
Lemma tidy_from_file_ok (path : string) (df : DataFrame) (rows : list row) :
  tidy_from_file path df = Ok rows ->
  exists recs, tidy_records path df = Ok recs /\ from_records recs = Ok rows.
Proof.
  unfold tidy_from_file.
  destruct (tidy_records path df) as [recs|e]; simpl; [|discriminate].
  intros H. eauto.
Qed.

(** Every row of the frame is the row of a record appended at a visited
    pair. *)
Lemma tidy_row_source (path : string) (df : DataFrame)
    (rows : list row) (r : row) :
  tidy_from_file path df = Ok rows -> In r rows ->
  exists sc year_row valid_years valid_cols s,
    labels_of_name (name_no_ext path) = Ok sc /\
    find_year_row df = Ok year_row /\
    year_loop df year_row 0 (loc_row df year_row 4) [] []
      = Ok (valid_years, valid_cols) /\
    In s (record_sources df (var_rows_of df year_row)
            (combine valid_years valid_cols)) /\
    stored (record_at (fst sc) (snd sc) df s) r.
Proof.
  intros H Hin.
  destruct (tidy_from_file_ok _ _ _ H) as (recs & Hrecs & Hrows).
  destruct (from_records_in _ _ _ Hrows Hin) as (rec & Hrec & Hst).
  destruct (tidy_record_source _ _ _ _ Hrecs Hrec)
    as (sc & yr & vy & vc & s & El & Eh & Ey & Hs & ->).
  exists sc, yr, vy, vc, s. auto.
Qed.

(** ** The exact-zero rule of worksheet row 29 *)

(** C1.  Rule 2 of the docstring of [tidy_from_file] (skip rows >= 29 when
    their value is exactly 0) is not applied by the loop of lines 75-89,
    which only skips blank cells: on [sheet_row30], whose header is on
    worksheet row 6, the variable ["Debt"] sits on worksheet row 30 (index
    29) with the value 0 under the year 2021, and the record with value 0 is
    in the output. *)
Theorem zero_on_row_30_is_emitted :
  find_year_row sheet_row30 = Ok 5 /\
  In ("Debt", 29) (var_rows_of sheet_row30 5) /\
  iat sheet_row30 29 4 = PInt 0 /\
  exists recs,
    tidy_from_file "AZ_Bullhead_City.xlsx" sheet_row30 = Ok recs /\
    In (mk_record (Some "AZ") "Bullhead_City" "Debt" 2021 (Same (PInt 0)))
       recs.
Proof.
  split; [reflexivity|]. split.
  - apply (nth_error_In _ 22). reflexivity.
  - split; [reflexivity|].
    eexists. split; [vm_compute; reflexivity|].
    apply (nth_error_In _ 22). reflexivity.
Qed.

(** ** Worksheets without a header row *)

(** C2, as stated, fails: on [sheet_no_year], which has no numeric value of
    [1900, 2100] in column 4, the extraction raises [IndexError]; the code
    has no [MalformedWorksheetError]. *)
Lemma no_year_raises_index_error :
  (forall r, r < nrows sheet_no_year ->
             is_year_value (iat sheet_no_year r 4) = false) /\
  tidy_from_file "UnknownPlace.xlsx" sheet_no_year = Raise "IndexError" /\
  tidy_from_file "UnknownPlace.xlsx" sheet_no_year
    <> Raise "MalformedWorksheetError".
Proof.
  split; [|split; [reflexivity|discriminate]].
  intros r Hr. do 4 (destruct r as [|r]; [reflexivity|]).
  simpl in Hr. lia.
Qed.

(** C2, amended.  For every worksheet in which no row has a numeric value
    of [1900, 2100] in column 4, the extraction fails by raising an
    exception, [KeyError] when the sheet has fewer than five columns and
    [IndexError] otherwise, and the worksheet adds no frame to the batch. *)
Theorem no_year_value_raises (path : string) (df : DataFrame) :
  (forall r, r < nrows df -> is_year_value (iat df r 4) = false) ->
  tidy_from_file path df
    = Raise (if ncols df <? 5 then "KeyError" else "IndexError") /\
  main_frames [(path, df)] = [].
Proof.
  intros H.
  assert (E : tidy_from_file path df
              = Raise (if ncols df <? 5 then "KeyError" else "IndexError")).
  { unfold tidy_from_file, tidy_records.
    destruct (labels_of_name_total (name_no_ext path)) as [sc ->]. simpl.
    rewrite (find_year_row_none df H). reflexivity. }
  split; [assumption|].
  unfold main_frames. simpl. rewrite E. reflexivity.
Qed.

Lemma no_year_value_raises_witness :
  (forall r, r < nrows sheet_no_year ->
             is_year_value (iat sheet_no_year r 4) = false) /\
  tidy_from_file "UnknownPlace.xlsx" sheet_no_year = Raise "IndexError" /\
  main_frames [("UnknownPlace.xlsx", sheet_no_year)] = [].
Proof.
  assert (H : forall r, r < nrows sheet_no_year ->
                        is_year_value (iat sheet_no_year r 4) = false).
  { intros r Hr. do 4 (destruct r as [|r]; [reflexivity|]).
    simpl in Hr. lia. }
  split; [exact H|].
  exact (no_year_value_raises "UnknownPlace.xlsx" sheet_no_year H).
Defined.

(** ** The value of a record *)

(** C3, as stated, fails: the text cell ["restated"] of [sheet_text], on a
    variable row and under the retained year 2021, is the value of a row of
    the returned frame. *)
Lemma text_cell_is_emitted :
  exists rows r,
    tidy_from_file "UnknownPlace.xlsx" sheet_text = Ok rows /\
    In r rows /\ value r = Same (PStr "restated" None) /\
    is_numeric (value r) = false.
Proof.
  eexists. eexists. split; [vm_compute; reflexivity|].
  split; [right; left; reflexivity|]. split; reflexivity.
Qed.

(** C3, amended.  The value of every emitted record is the content of a
    worksheet cell that is not blank, on a row at least two rows below the
    header row and in a column at or after the detection column, as the frame
    holds it: the cell as it is, a text cell included, or the float of an int
    cell when pandas makes the value column float64. *)
Theorem value_is_stored_cell (path : string) (df : DataFrame)
    (rows : list row) (rec : row) :
  tidy_from_file path df = Ok rows -> In rec rows ->
  exists year_row r col,
    find_year_row df = Ok year_row /\
    year_row + 2 <= r < nrows df /\ 4 <= col < ncols df /\
    isna (iat df r col) = false /\
    coerced (iat df r col) (value rec).
Proof.
  intros H Hin.
  destruct (tidy_row_source _ _ _ _ H Hin)
    as (sc & yr & vy & vc & [[label r] [y col]] & _ & Eh & Ey & Hs & Hst).
  apply in_record_sources in Hs as (Hr & Hc & Hna). simpl in *.
  apply var_rows_in in Hr as (Hr & _).
  apply (valid_cols_spec _ _ _ _ Ey) in Hc as (Hc & _).
  destruct Hst as (_ & _ & _ & _ & Hv). simpl in Hv.
  exists yr, r, col. auto.
Qed.

Lemma value_is_stored_cell_witness :
  exists year_row r col,
    find_year_row sheet_text = Ok year_row /\
    year_row + 2 <= r < nrows sheet_text /\ 4 <= col < ncols sheet_text /\
    isna (iat sheet_text r col) = false /\
    coerced (iat sheet_text r col) (Same (PStr "restated" None)).
Proof.
  apply (value_is_stored_cell "UnknownPlace.xlsx" sheet_text
           [mk_record None "UnknownPlace" "Revenue" 2020
              (Same (PFloat (7 # 1) "7.0"));
            mk_record None "UnknownPlace" "Revenue" 2021
              (Same (PStr "restated" None))]
           (mk_record None "UnknownPlace" "Revenue" 2021
              (Same (PStr "restated" None)))).
  - reflexivity.
  - right. left. reflexivity.
Defined.

(** ** Where records come from *)

(** C7.  Every emitted record comes from a (row, column) pair whose row is
    a recorded variable row, whose column is in the retained year columns
    and whose cell is not blank: the record carries the label of the row,
    the year of the column and the content of the cell as the frame holds
    it. *)
Theorem record_from_variable_row_and_year_column (path : string)
    (df : DataFrame) (rows : list row) (rec : row) :
  tidy_from_file path df = Ok rows -> In rec rows ->
  exists year_row valid_years valid_cols r col,
    find_year_row df = Ok year_row /\
    year_loop df year_row 0 (loc_row df year_row 4) [] []
      = Ok (valid_years, valid_cols) /\
    In (variable rec, r) (var_rows_of df year_row) /\
    In (year rec, col) (combine valid_years valid_cols) /\
    In col valid_cols /\
    isna (iat df r col) = false /\
    coerced (iat df r col) (value rec).
Proof.
  intros H Hin.
  destruct (tidy_row_source _ _ _ _ H Hin)
    as (sc & yr & vy & vc & [[label r] [y col]] & _ & Eh & Ey & Hs & Hst).
  apply in_record_sources in Hs as (Hr & Hc & Hna). simpl in *.
  destruct Hst as (_ & _ & Hl & Hy & Hv). simpl in *.
  exists yr, vy, vc, r, col. rewrite Hl, Hy. repeat split; try assumption.
  now apply in_combine_r in Hc.
Qed.

Lemma record_from_variable_row_and_year_column_witness :
  exists year_row valid_years valid_cols r col,
    find_year_row sheet_small = Ok year_row /\
    year_loop sheet_small year_row 0 (loc_row sheet_small year_row 4) [] []
      = Ok (valid_years, valid_cols) /\
    In ("Revenue", r) (var_rows_of sheet_small year_row) /\
    In (2020%Z, col) (combine valid_years valid_cols) /\
    In col valid_cols /\
    isna (iat sheet_small r col) = false /\
    coerced (iat sheet_small r col) (Same (PInt 7)).
Proof.
  apply (record_from_variable_row_and_year_column "AZ_Mesa.xlsx" sheet_small
           [mk_record (Some "AZ") "Mesa" "Revenue" 2020 (Same (PInt 7))]
           (mk_record (Some "AZ") "Mesa" "Revenue" 2020 (Same (PInt 7)))).
  - reflexivity.
  - left. reflexivity.
Defined.

(** ** The end of the table *)

Example sheet_gap_var_rows : var_rows_of sheet_gap 0 = [("Revenue", 2)].
Proof. reflexivity. Qed.

(** C6.  The scan of the variable rows, which starts two rows below the
    header, stops at a run of five consecutive rows whose first cell is
    blank or holds white space only: no row of the run or below it is
    recorded as a variable row, and no record comes from such a row, whatever
    its label. *)
Theorem scan_stops_after_five_blank_labels (df : DataFrame)
    (year_row r0 : nat) :
  year_row + 2 <= r0 ->
  (forall i, i < 5 -> blank_label (iat df (r0 + i) 0) = true) ->
  (forall label r, In (label, r) (var_rows_of df year_row) -> r < r0) /\
  (forall cols s,
      In s (record_sources df (var_rows_of df year_row) cols) ->
      snd (fst s) < r0) /\
  (forall path (rows : list row) (rec : row),
      find_year_row df = Ok year_row ->
      tidy_from_file path df = Ok rows -> In rec rows ->
      exists r col, r < r0 /\ In (variable rec, r) (var_rows_of df year_row) /\
                    coerced (iat df r col) (value rec)).
Proof.
  intros Hr0 Hb.
  assert (Hv : forall label r,
             In (label, r) (var_rows_of df year_row) -> r < r0).
  { intros label r. unfold var_rows_of, range.
    now apply scan_labels_before_run. }
  split; [assumption|]. split.
  - intros cols [[label r] yc] Hs. apply in_record_sources in Hs as (Hs & _).
    simpl in *. eapply Hv, Hs.
  - intros path rows rec Eh H Hin.
    destruct (tidy_row_source _ _ _ _ H Hin)
      as (sc & yr & vy & vc & [[label r] [y col]] & _ & Eh' & _ & Hs & Hst).
    rewrite Eh in Eh'. injection Eh' as <-.
    apply in_record_sources in Hs as (Hs & _). simpl in *.
    destruct Hst as (_ & _ & Hl & _ & Hval). simpl in *.
    exists r, col. rewrite Hl. split; [eapply Hv, Hs|]. split; assumption.
Qed.

Lemma scan_stops_after_five_blank_labels_witness :
  0 + 2 <= 3 /\
  (forall i, i < 5 -> blank_label (iat sheet_gap (3 + i) 0) = true) /\
  (forall label r, In (label, r) (var_rows_of sheet_gap 0) -> r < 3) /\
  (forall cols s,
      In s (record_sources sheet_gap (var_rows_of sheet_gap 0) cols) ->
      snd (fst s) < 3) /\
  (forall path (rows : list row) (rec : row),
      find_year_row sheet_gap = Ok 0 ->
      tidy_from_file path sheet_gap = Ok rows -> In rec rows ->
      exists r col, r < 3 /\ In (variable rec, r) (var_rows_of sheet_gap 0) /\
                    coerced (iat sheet_gap r col) (value rec)).
Proof.
  assert (Hb : forall i, i < 5 -> blank_label (iat sheet_gap (3 + i) 0) = true).
  { intros i Hi. do 5 (destruct i as [|i]; [reflexivity|]). lia. }
  split; [lia|]. split; [exact Hb|].
  apply (scan_stops_after_five_blank_labels sheet_gap 0 3); [lia|exact Hb].
Defined.

(** ** Year columns without data *)

(** C5, as stated, fails in its second half: in [sheet_notes] the column
    after the year 2020 has the non-blank header ["Notes"] and a non-blank,
    non-zero cell in its data segment, yet it is not retained: [int("Notes")]
    raises [ValueError] and the extraction ends there. *)
Lemma text_header_with_data_is_not_retained :
  find_year_row sheet_notes = Ok 1 /\
  4 <= 5 < ncols sheet_notes /\
  isna (iat sheet_notes 1 5) = false /\
  ~ segment_blank_or_zero sheet_notes 1 5 /\
  year_loop sheet_notes 1 0 (loc_row sheet_notes 1 4) [] []
    = Raise "ValueError" /\
  tidy_from_file "UnknownPlace.xlsx" sheet_notes = Raise "ValueError".
Proof.
  split; [reflexivity|]. split; [vm_compute; lia|]. split; [reflexivity|].
  split; [|split; reflexivity].
  intros H. specialize (H 3 ltac:(lia) ltac:(vm_compute; discriminate)).
  discriminate.
Qed.

(** C5, amended.  For every candidate year column (at or after the
    detection column, with a non-blank header cell): if every cell of its
    segment, from two rows below the header down to the smaller of worksheet
    row 28 and the last row, is blank or zero, the column is discarded and no
    record comes from it for any variable; otherwise it is retained, with the
    integer its header cell converts to as its year, provided the header cell
    of every year column with data converts to an integer; when its own
    header cell does not convert, the loop over the year columns raises. *)
Theorem year_column_retained_iff_data (df : DataFrame) (year_row col : nat) :
  4 <= col < ncols df -> isna (iat df year_row col) = false ->
  (segment_blank_or_zero df year_row col ->
     forall valid_years valid_cols,
       year_loop df year_row 0 (loc_row df year_row 4) [] []
         = Ok (valid_years, valid_cols) ->
       ~ In col valid_cols /\
       forall s,
         In s (record_sources df (var_rows_of df year_row)
                 (combine valid_years valid_cols)) ->
         snd (snd s) <> col) /\
  (~ segment_blank_or_zero df year_row col ->
     (headers_convert df year_row ->
      exists valid_years valid_cols y,
        year_loop df year_row 0 (loc_row df year_row 4) [] []
          = Ok (valid_years, valid_cols) /\
        In col valid_cols /\
        py_int (iat df year_row col) = Ok y /\
        In (y, col) (combine valid_years valid_cols)) /\
     ((forall y, py_int (iat df year_row col) <> Ok y) ->
      is_ok (year_loop df year_row 0 (loc_row df year_row 4) [] []) = false)).
Proof.
  intros Hcol Hna. split.
  - intros Hseg vy vc Ey. apply column_kept_false_iff in Hseg.
    destruct (valid_cols_spec _ _ _ _ Ey) as (L & Hiff & _).
    assert (Hnot : ~ In col vc).
    { intros Hin. apply (in_valid_cols vy vc col L) in Hin as [y Hy].
      apply Hiff in Hy as (_ & _ & Hk & _). congruence. }
    split; [assumption|].
    intros [lr [y c]] Hs Heq. simpl in Heq. subst c.
    apply in_record_sources in Hs as (_ & Hs & _). simpl in Hs.
    apply in_combine_r in Hs. contradiction.
  - intros Hseg.
    assert (Hk : column_kept df year_row col = true).
    { destruct (column_kept df year_row col) eqn:K; [reflexivity|].
      apply column_kept_false_iff in K. contradiction. }
    split.
    + intros Hc.
      destruct (year_loop_headers_convert _ _ Hc) as (vy & vc & Ey).
      destruct (valid_cols_spec _ _ _ _ Ey) as (L & Hiff & Hkept).
      destruct (Hkept col Hcol Hna Hk) as [y Hy].
      exists vy, vc, y. split; [assumption|].
      split; [now apply in_combine_r in Hy|].
      split; [now apply Hiff in Hy|assumption].
    + intros Hfail.
      destruct (year_loop df year_row 0 (loc_row df year_row 4) [] [])
        as [[vy vc]|e] eqn:Ey; [|reflexivity].
      destruct (valid_cols_spec _ _ _ _ Ey) as (L & Hiff & Hkept).
      destruct (Hkept col Hcol Hna Hk) as [y Hy].
      apply Hiff in Hy as (_ & _ & _ & Hy). now apply Hfail in Hy.
Qed.

Lemma sheet_2024_headers_convert : headers_convert sheet_2024 0.
Proof.
  intros col [Hlo Hhi] _ _. change (ncols sheet_2024) with 6 in Hhi.
  do 4 (destruct col as [|col]; [lia|]).
  destruct col as [|col]; [eexists; reflexivity|].
  destruct col as [|col]; [eexists; reflexivity|lia].
Defined.

Lemma sheet_2024_segments :
  segment_blank_or_zero sheet_2024 0 5 /\ ~ segment_blank_or_zero sheet_2024 0 4.
Proof.
  split.
  - intros r Hlo Hhi. change (end_idx sheet_2024) with 3%Z in Hhi.
    do 2 (destruct r as [|r]; [lia|]).
    destruct r as [|r]; [reflexivity|].
    destruct r as [|r]; [reflexivity|lia].
  - intros H. specialize (H 2 ltac:(lia) ltac:(vm_compute; discriminate)).
    discriminate.
Defined.

Lemma year_column_retained_iff_data_witness :
  (forall valid_years valid_cols,
      year_loop sheet_2024 0 0 (loc_row sheet_2024 0 4) [] []
        = Ok (valid_years, valid_cols) ->
      ~ In 5 valid_cols /\
      forall s,
        In s (record_sources sheet_2024 (var_rows_of sheet_2024 0)
                (combine valid_years valid_cols)) ->
        snd (snd s) <> 5) /\
  (exists valid_years valid_cols y,
      year_loop sheet_2024 0 0 (loc_row sheet_2024 0 4) [] []
        = Ok (valid_years, valid_cols) /\
      In 4 valid_cols /\
      py_int (iat sheet_2024 0 4) = Ok y /\
      In (y, 4) (combine valid_years valid_cols)).
Proof.
  split.
  - apply (proj1 (year_column_retained_iff_data sheet_2024 0 5
                    ltac:(vm_compute; lia) eq_refl)).
    exact (proj1 sheet_2024_segments).
  - apply (proj2 (year_column_retained_iff_data sheet_2024 0 4
                    ltac:(vm_compute; lia) eq_refl)).
    + exact (proj2 sheet_2024_segments).
    + exact sheet_2024_headers_convert.
Defined.

Example sheet_2024_output :
  tidy_from_file "MB_Steinbach.xlsx" sheet_2024
  = Ok [mk_record (Some "MB") "Steinbach" "Revenue" 2023 (Same (PInt 7));
        mk_record (Some "MB") "Steinbach" "Debt" 2023 (Same (PInt 3))].
Proof. reflexivity. Qed.

(** An int next to a float in the value column is stored as a float. *)
Example sheet_text_year_output :
  tidy_records "AZ_Mesa.xlsx" sheet_text_year
  = Ok [mk_record (Some "AZ") "Mesa" "Revenue" 2020 (PFloat (3 # 2) "1.5");
        mk_record (Some "AZ") "Mesa" "Revenue" 2021 (PInt 7)] /\
  tidy_from_file "AZ_Mesa.xlsx" sheet_text_year
  = Ok [mk_record (Some "AZ") "Mesa" "Revenue" 2020
          (Same (PFloat (3 # 2) "1.5"));
        mk_record (Some "AZ") "Mesa" "Revenue" 2021 (Float64 7)].
Proof. split; reflexivity. Qed.

(** ** A header row too far down *)

Lemma column_kept_late_header (df : DataFrame) (year_row col : nat) :
  26 <= year_row -> column_kept df year_row col = false.
Proof.
  intros H. unfold column_kept.
  replace (end_idx df <? Z.of_nat (year_row + 2))%Z with true; [reflexivity|].
  symmetry. apply Z.ltb_lt. unfold end_idx. lia.
Qed.

(** C10.  When the detected header row is at index 26 or more, the first
    data row lies past index 27: every candidate year column is skipped by
    the guard [start_idx > end_idx], no year column is retained, and the
    extractor returns the empty list of records without raising. *)
Theorem late_header_gives_no_records (path : string) (df : DataFrame)
    (year_row : nat) :
  find_year_row df = Ok year_row -> 26 <= year_row ->
  (end_idx df <? Z.of_nat (year_row + 2))%Z = true /\
  year_loop df year_row 0 (loc_row df year_row 4) [] [] = Ok ([], []) /\
  tidy_from_file path df = Ok [].
Proof.
  intros Eh Hlate.
  assert (Ey : year_loop df year_row 0 (loc_row df year_row 4) [] []
               = Ok ([], [])).
  { apply year_loop_skip_all. intros col. now apply column_kept_late_header. }
  split; [apply Z.ltb_lt; unfold end_idx; lia|]. split; [assumption|].
  unfold tidy_from_file, tidy_records.
  destruct (labels_of_name_total (name_no_ext path)) as [sc ->]. simpl.
  rewrite Eh. simpl. rewrite Ey. simpl.
  now rewrite build_records_no_cols.
Qed.

Lemma late_header_gives_no_records_witness :
  find_year_row sheet_late = Ok 26 /\ 26 <= 26 /\
  (end_idx sheet_late <? Z.of_nat (26 + 2))%Z = true /\
  year_loop sheet_late 26 0 (loc_row sheet_late 26 4) [] [] = Ok ([], []) /\
  tidy_from_file "AZ_Mesa.xlsx" sheet_late = Ok [].
Proof.
  split; [reflexivity|]. split; [lia|].
  apply (late_header_gives_no_records "AZ_Mesa.xlsx" sheet_late 26);
    [reflexivity|lia].
Defined.

(** ** Region and locality *)

(** C8.  The (region, locality) pair comes from the base name without
    extension, split at its first underscore only: with an underscore, the
    region is the text before the first one and the locality is all that
    follows it (underscores included); without one, the region is unset and
    the locality is the whole name.  Every record carries that pair.
    ["AZ_Bullhead_City.xlsx"] gives ["AZ"] and ["Bullhead_City"],
    ["UnknownPlace.xlsx"] gives no region and ["UnknownPlace"]. *)
Theorem labels_split_at_first_underscore (path : string) :
  (forall region locality,
      name_no_ext path = (region ++ "_" ++ locality)%string ->
      Str.contains "_" region = false ->
      labels_of_name (name_no_ext path) = Ok (Some region, locality)) /\
  (Str.contains "_" (name_no_ext path) = false ->
   labels_of_name (name_no_ext path) = Ok (None, name_no_ext path)) /\
  (forall df recs rec,
      tidy_from_file path df = Ok recs -> In rec recs ->
      labels_of_name (name_no_ext path) = Ok (state rec, city rec)) /\
  (name_no_ext "AZ_Bullhead_City.xlsx" = "AZ_Bullhead_City" /\
   labels_of_name (name_no_ext "AZ_Bullhead_City.xlsx")
     = Ok (Some "AZ", "Bullhead_City")) /\
  (name_no_ext "UnknownPlace.xlsx" = "UnknownPlace" /\
   labels_of_name (name_no_ext "UnknownPlace.xlsx")
     = Ok (None, "UnknownPlace")).
Proof.
  split; [|split; [|split; [|split; split; reflexivity]]].
  - intros region locality -> Hr. unfold labels_of_name.
    change ("_" ++ locality)%string with (String "_" locality).
    now rewrite contains_app, split1_first.
  - intros H. unfold labels_of_name. now rewrite H.
  - intros df recs rec H Hin.
    destruct (tidy_row_source _ _ _ _ H Hin)
      as ([st ci] & yr & vy & vc & s & El & _ & _ & _ & Hst).
    destruct Hst as (Hs & Hc & _). simpl in Hs, Hc. now rewrite Hs, Hc.
Qed.

Lemma labels_split_at_first_underscore_witness :
  name_no_ext "/data/AZ_Bullhead_City.xlsx" = "AZ_Bullhead_City" /\
  Str.contains "_" "AZ" = false /\
  labels_of_name (name_no_ext "/data/AZ_Bullhead_City.xlsx")
    = Ok (Some "AZ", "Bullhead_City").
Proof.
  split; [reflexivity|]. split; [reflexivity|].
  apply (proj1 (labels_split_at_first_underscore "/data/AZ_Bullhead_City.xlsx")
           "AZ" "Bullhead_City"); reflexivity.
Defined.

(** ** The batch *)

Lemma fold_frames_acc (workbooks : list (string * DataFrame)) :
  forall frames,
    fold_left
      (fun frames wb =>
         match tidy_from_file (fst wb) (snd wb) with
         | Ok df => match df with
                    | [] => frames
                    | _ :: _ => frames ++ [df]
                    end
         | Raise _ => frames
         end)
      workbooks frames
    = frames ++ main_frames workbooks.
Proof.
  unfold main_frames.
  induction workbooks as [|wb workbooks IH]; intros frames; simpl.
  - now rewrite app_nil_r.
  - rewrite IH. symmetry. rewrite IH.
    destruct (tidy_from_file (fst wb) (snd wb)) as [[|rec recs]|e];
      try reflexivity.
    now rewrite <- app_assoc.
Qed.

Lemma main_frames_app (ws1 ws2 : list (string * DataFrame)) :
  main_frames (ws1 ++ ws2) = main_frames ws1 ++ main_frames ws2.
Proof.
  unfold main_frames at 1. rewrite fold_left_app.
  fold (main_frames ws1). apply fold_frames_acc.
Qed.

Lemma concat_main_frames (workbooks : list (string * DataFrame)) :
  List.concat (main_frames workbooks) = flat_map frame_of workbooks.
Proof.
  induction workbooks as [|wb workbooks IH]; [reflexivity|].
  change (wb :: workbooks) with ([wb] ++ workbooks).
  rewrite main_frames_app, concat_app, IH. simpl. f_equal.
  unfold main_frames, frame_of. simpl.
  destruct (tidy_from_file (fst wb) (snd wb)) as [[|rec recs]|e];
    try reflexivity.
  simpl. now rewrite app_nil_r.
Qed.

(** ** Keys of the concatenated table *)

Lemma NoDup_map_inj_on {A B : Type} (g : A -> B) (l : list A) (a a' : A) :
  NoDup (map g l) -> In a l -> In a' l -> g a = g a' -> a = a'.
Proof.
  induction l as [|x l IH]; simpl; intros H Ha Ha' E; [contradiction|].
  apply NoDup_cons_iff in H as [Hx Hl].
  destruct Ha as [->|Ha], Ha' as [->|Ha']; auto.
  - exfalso. apply Hx. rewrite E. now apply in_map.
  - exfalso. apply Hx. rewrite <- E. now apply in_map.
Qed.

Lemma map_over_flat_map {A B C : Type} (g : B -> C) (f : A -> list B)
    (l : list A) :
  map g (flat_map f l) = flat_map (fun a => map g (f a)) l.
Proof.
  induction l as [|a l IH]; simpl; [reflexivity|].
  now rewrite map_app, IH.
Qed.

(** Within one worksheet: distinct labels and distinct years give distinct
    keys. *)
Lemma sources_keys_distinct (st : option string) (ci : string)
    (df : DataFrame) (var_rows : list (string * nat)) (cols : list (Z * nat)) :
  NoDup (map fst var_rows) -> NoDup (map fst cols) ->
  NoDup (map (fun s => key_of (record_at st ci df s))
             (record_sources df var_rows cols)).
Proof.
  intros Hv Hc. unfold record_sources.
  rewrite map_over_flat_map. apply NoDup_flat_map.
  - now apply NoDup_map_inv in Hv.
  - intros lr _. rewrite map_over_flat_map. apply NoDup_flat_map.
    + now apply NoDup_map_inv in Hc.
    + intros yc _. destruct (isna (iat df (snd lr) (snd yc))); simpl.
      * constructor.
      * constructor; [intros []|constructor].
    + intros yc yc' k Hyc Hyc' Hk Hk'.
      destruct (isna (iat df (snd lr) (snd yc))); [contradiction|].
      destruct (isna (iat df (snd lr) (snd yc'))); [contradiction|].
      destruct Hk as [<-|[]]. destruct Hk' as [Hk'|[]].
      unfold key_of, record_at in Hk'. simpl in Hk'.
      apply (NoDup_map_inj_on fst cols); try assumption. congruence.
  - intros lr lr' k Hlr Hlr' Hk Hk'.
    apply in_map_iff in Hk as (s & <- & Hs).
    apply in_map_iff in Hk' as (s' & Hk' & Hs').
    apply in_flat_map in Hs as (yc & _ & Hs).
    apply in_flat_map in Hs' as (yc' & _ & Hs').
    destruct (isna (iat df (snd lr) (snd yc))); [contradiction|].
    destruct (isna (iat df (snd lr') (snd yc'))); [contradiction|].
    destruct Hs as [<-|[]]. destruct Hs' as [<-|[]].
    unfold key_of, record_at in Hk'. simpl in Hk'.
    apply (NoDup_map_inj_on fst var_rows); try assumption. congruence.
Qed.

Lemma frame_keys_distinct (wb : string * DataFrame) :
  distinct_within (snd wb) -> NoDup (map key_of (frame_of wb)).
Proof.
  intros Hd. unfold frame_of.
  destruct (tidy_from_file (fst wb) (snd wb)) as [rows|e] eqn:E;
    [|constructor].
  destruct (tidy_from_file_ok _ _ _ E) as (recs & Hrecs & Hrows).
  rewrite (from_records_keys _ _ Hrows).
  destruct (tidy_records_ok _ _ _ Hrecs)
    as (sc & yr & vy & vc & _ & Eh & Ey & ->).
  destruct (Hd yr vy vc Eh Ey) as [Hlab Hyears].
  rewrite build_records_sources, map_map.
  apply sources_keys_distinct; [assumption|].
  now apply NoDup_fst_combine.
Qed.

Lemma frame_labels (wb : string * DataFrame) (rec : row) :
  In rec (frame_of wb) ->
  labels_of_name (name_no_ext (fst wb)) = Ok (state rec, city rec).
Proof.
  unfold frame_of.
  destruct (tidy_from_file (fst wb) (snd wb)) as [recs|e] eqn:E;
    [|contradiction].
  intros Hin.
  destruct (tidy_row_source _ _ _ _ E Hin)
    as ([st ci] & yr & vy & vc & s & El & _ & _ & _ & Hst).
  destruct Hst as (Hs & Hc & _). simpl in Hs, Hc. now rewrite Hs, Hc.
Qed.

Example same_stem_same_labels :
  labels_of_name (name_no_ext "AZ_Mesa.xlsx")
  = labels_of_name (name_no_ext "AZ_Mesa.xlsm").
Proof. reflexivity. Qed.

(** C4, as stated, fails.  Two distinct file names with the same base name
    up to the extension give the same (region, locality) pair, so two such
    workbooks with the year 2020 and the variable ["Revenue"] give the same
    key twice; and one workbook alone gives a key twice when a label occurs on
    two variable rows. *)
Lemma distinct_filenames_can_share_keys :
  (NoDup (map fst [("AZ_Mesa.xlsx", sheet_small); ("AZ_Mesa.xlsm", sheet_small)])
   /\ exists all,
        tidy_data [("AZ_Mesa.xlsx", sheet_small); ("AZ_Mesa.xlsm", sheet_small)]
          = Some all /\
        ~ NoDup (map key_of all)) /\
  (NoDup (map fst [("AZ_Mesa.xlsx", sheet_twice)])
   /\ exists all,
        tidy_data [("AZ_Mesa.xlsx", sheet_twice)] = Some all /\
        ~ NoDup (map key_of all)).
Proof.
  split; split.
  - repeat constructor; simpl; intuition discriminate.
  - eexists. split; [vm_compute; reflexivity|].
    intros H. apply NoDup_cons_iff in H as [H _]. apply H. left. reflexivity.
  - repeat constructor; simpl; intuition discriminate.
  - eexists. split; [vm_compute; reflexivity|].
    intros H. apply NoDup_cons_iff in H as [H _]. apply H. left. reflexivity.
Qed.

(** C4, amended.  For every collection of worksheets whose file names give
    pairwise distinct (region, locality) pairs, and in each of which the
    labels of the variable rows are pairwise distinct and the years of the
    retained columns are pairwise distinct, the concatenation of the
    extractor's outputs has no duplicate (region, locality, variable, year)
    key. *)
Theorem concatenation_keys_distinct (workbooks : list (string * DataFrame)) :
  NoDup (map (fun wb => labels_of_name (name_no_ext (fst wb))) workbooks) ->
  (forall wb, In wb workbooks -> distinct_within (snd wb)) ->
  NoDup (map key_of (List.concat (main_frames workbooks))) /\
  forall all, tidy_data workbooks = Some all -> NoDup (map key_of all).
Proof.
  intros Hlab Hd.
  assert (H : NoDup (map key_of (List.concat (main_frames workbooks)))).
  { rewrite concat_main_frames, map_over_flat_map. apply NoDup_flat_map.
    - now apply NoDup_map_inv in Hlab.
    - intros wb Hwb. apply frame_keys_distinct. now apply Hd.
    - intros wb wb' k Hwb Hwb' Hk Hk'.
      apply in_map_iff in Hk as (rec & <- & Hrec).
      apply in_map_iff in Hk' as (rec' & Hk' & Hrec').
      apply frame_labels in Hrec. apply frame_labels in Hrec'.
      unfold key_of in Hk'.
      apply (NoDup_map_inj_on
               (fun wb => labels_of_name (name_no_ext (fst wb))) workbooks);
        try assumption.
      rewrite Hrec, Hrec'. congruence. }
  split; [assumption|].
  intros all. unfold tidy_data.
  destruct (main_frames workbooks) as [|f fs] eqn:E; [discriminate|].
  intros [= <-]. assumption.
Qed.

Lemma sheet_small_distinct_within : distinct_within sheet_small.
Proof.
  intros yr vy vc Eh Ey. vm_compute in Eh. injection Eh as <-.
  vm_compute in Ey. injection Ey as <- <-.
  split; repeat constructor; simpl; intuition.
Defined.

Lemma concatenation_keys_distinct_witness :
  NoDup (map (fun wb => labels_of_name (name_no_ext (fst wb)))
           [("AZ_Mesa.xlsx", sheet_small); ("AZ_Yuma.xlsx", sheet_small)]) /\
  (forall wb,
      In wb [("AZ_Mesa.xlsx", sheet_small); ("AZ_Yuma.xlsx", sheet_small)] ->
      distinct_within (snd wb)) /\
  NoDup (map key_of
           (List.concat
              (main_frames
                 [("AZ_Mesa.xlsx", sheet_small); ("AZ_Yuma.xlsx", sheet_small)]))) /\
  forall all,
    tidy_data [("AZ_Mesa.xlsx", sheet_small); ("AZ_Yuma.xlsx", sheet_small)]
      = Some all ->
    NoDup (map key_of all).
Proof.
  assert (H1 : NoDup (map (fun wb => labels_of_name (name_no_ext (fst wb)))
                 [("AZ_Mesa.xlsx", sheet_small); ("AZ_Yuma.xlsx", sheet_small)])).
  { repeat constructor; simpl; intuition discriminate. }
  assert (H2 : forall wb,
             In wb [("AZ_Mesa.xlsx", sheet_small); ("AZ_Yuma.xlsx", sheet_small)] ->
             distinct_within (snd wb)).
  { intros wb [<-|[<-|[]]]; exact sheet_small_distinct_within. }
  split; [exact H1|]. split; [exact H2|].
  exact (concatenation_keys_distinct _ H1 H2).
Defined.

(** * Further properties of the extractor *)

(** ** The header row is the first row with a year *)

Lemma find_seq_first (p : nat -> bool) :
  forall n a r,
    find p (seq a n) = Some r <->
    a <= r < a + n /\ p r = true /\ forall r', a <= r' < r -> p r' = false.
Proof.
  induction n as [|n IH]; intros a r; simpl.
  - split; [discriminate|]. intros [? _]. lia.
  - destruct (p a) eqn:Pa.
    + split.
      * intros [= <-]. split; [lia|]. split; [assumption|]. intros r' ?. lia.
      * intros (Hr & Hp & Hfirst). f_equal.
        destruct (Nat.eq_dec a r) as [|Hne]; [assumption|].
        rewrite (Hfirst a) in Pa by lia. discriminate.
    + rewrite IH. split.
      * intros (Hr & Hp & Hfirst). split; [lia|]. split; [assumption|].
        intros r' Hr'. destruct (Nat.eq_dec r' a) as [->|]; [assumption|].
        apply Hfirst. lia.
      * intros (Hr & Hp & Hfirst).
        assert (a <> r) by (intros ->; congruence).
        split; [lia|]. split; [assumption|]. intros r' Hr'. apply Hfirst. lia.
Qed.

(** X1.  [find_year_row] returns a row exactly when the sheet has a column
    4 and that row is the first one, from the top, whose cell in column 4 is a
    number of [1900, 2100]: later rows with a year never become the header. *)
Theorem header_row_is_first_year_row (df : DataFrame) (r : nat) :
  find_year_row df = Ok r <->
  5 <= ncols df /\ r < nrows df /\
  is_year_value (iat df r 4) = true /\
  forall r', r' < r -> is_year_value (iat df r' 4) = false.
Proof.
  unfold find_year_row, range. rewrite Nat.sub_0_r.
  destruct (ncols df <? 5) eqn:W.
  - apply Nat.ltb_lt in W. split; [discriminate|]. intros [? _]. lia.
  - apply Nat.ltb_ge in W.
    destruct (find _ _) as [r0|] eqn:F.
    + apply find_seq_first in F as (Hr0 & Hp0 & Hf0). split.
      * intros [= <-]. repeat split; try assumption; try lia.
        intros r' Hr'. apply Hf0. lia.
      * intros (_ & Hr & Hp & Hf). f_equal.
        destruct (Nat.lt_trichotomy r0 r) as [Hlt|[|Hgt]]; [|assumption|].
        -- rewrite (Hf r0 Hlt) in Hp0. discriminate.
        -- rewrite (Hf0 r) in Hp by lia. discriminate.
    + split; [discriminate|]. intros (_ & Hr & Hp & _).
      assert (X : find (fun r => is_year_value (iat df r 4)) (seq 0 (nrows df))
                  <> None).
      { intros N. rewrite (find_none _ _ N r) in Hp; [discriminate|].
        apply in_seq. lia. }
      contradiction.
Qed.

(** ** Which rows are variable rows *)

Lemma scan_labels_reaches (df : DataFrame) (r : nat) :
  blank_label (iat df r 0) = false ->
  forall n b s,
    s < 5 ->
    (forall i, i < s -> blank_label (iat df (b + i) 0) = true) ->
    b + s <= r < b + s + n ->
    (forall r0, b <= r0 -> r0 + 5 <= r -> ~ blank_run df r0) ->
    In (Str.strip (str (iat df r 0)), r) (scan_labels df (seq (b + s) n) s).
Proof.
  intros Hnb. induction n as [|n IH]; intros b s Hs Hstreak Hr Hrun; [lia|].
  cbn [seq]. rewrite scan_labels_cons.
  destruct (Nat.eq_dec (b + s) r) as [->|Hne].
  - rewrite Hnb. now left.
  - destruct (blank_label (iat df (b + s) 0)) eqn:B.
    + assert (Hs' : S s < 5).
      { destruct (Nat.eq_dec s 4) as [->|]; [|lia]. exfalso.
        apply (Hrun b); [lia|lia|]. intros i Hi.
        destruct (Nat.eq_dec i 4) as [->|]; [assumption|]. apply Hstreak. lia. }
      replace (5 <=? S s) with false by (symmetry; apply Nat.leb_gt; lia).
      replace (S (b + s)) with (b + S s) by lia.
      apply IH; [assumption| |lia|assumption].
      intros i Hi. destruct (Nat.eq_dec i s) as [->|]; [assumption|].
      apply Hstreak. lia.
    + right. replace (S (b + s)) with (S (b + s) + 0) by lia.
      apply IH; [lia| |lia|].
      * intros i Hi. lia.
      * intros r0 Hr0. apply Hrun. lia.
Qed.

(** X2.  A row is recorded as a variable row, with its trimmed label,
    exactly when it lies at least two rows below the header, its label is not
    blank, and no run of five consecutive blank labels lies between the first
    data row and it; up to four blank rows in a row do not end the table. *)
Theorem variable_row_iff (df : DataFrame) (year_row : nat) (label : string)
    (r : nat) :
  In (label, r) (var_rows_of df year_row) <->
  year_row + 2 <= r < nrows df /\
  blank_label (iat df r 0) = false /\
  label = Str.strip (str (iat df r 0)) /\
  forall r0, year_row + 2 <= r0 -> r0 + 5 <= r -> ~ blank_run df r0.
Proof.
  split.
  - intros H. destruct (var_rows_in _ _ _ _ H) as (Hr & Hb & Hl).
    repeat split; try assumption; try lia.
    intros r0 Hr0 Hr0' Hrun.
    unfold var_rows_of, range in H.
    apply (scan_labels_before_run df r0 Hrun) in H; lia.
  - intros (Hr & Hb & -> & Hrun). unfold var_rows_of, range.
    replace (year_row + 2) with (year_row + 2 + 0) at 1 by lia.
    apply scan_labels_reaches; try assumption; lia.
Qed.

(** ** Labels are trimmed *)

Lemma lstrip_cons (a : ascii) (r1 : string) :
  Str.lstrip (String a r1) =
  if Str.is_space a then Str.lstrip r1
  else
    match r1 with
    | EmptyString => String a r1
    | String b r2 =>
        if Str.is_space2 a b then Str.lstrip r2
        else
          match r2 with
          | EmptyString => String a r1
          | String c r3 =>
              if Str.is_space3 a b c then Str.lstrip r3 else String a r1
          end
    end.
Proof. reflexivity. Qed.

Lemma all_space_cons (a : ascii) (r1 : string) :
  Str.all_space (String a r1) =
  if Str.is_space a then Str.all_space r1
  else
    match r1 with
    | EmptyString => false
    | String b r2 =>
        if Str.is_space2 a b then Str.all_space r2
        else
          match r2 with
          | EmptyString => false
          | String c r3 => Str.is_space3 a b c && Str.all_space r3
          end
    end.
Proof. reflexivity. Qed.

Lemma rstrip_cons (c : ascii) (rest : string) :
  Str.rstrip (String c rest) =
  if Str.all_space (String c rest) then EmptyString
  else String c (Str.rstrip rest).
Proof. reflexivity. Qed.

Lemma starts_with_space_cons (a : ascii) (r1 : string) :
  Str.starts_with_space (String a r1) =
  Str.is_space a ||
  match r1 with
  | EmptyString => false
  | String b r2 =>
      Str.is_space2 a b ||
      match r2 with
      | EmptyString => false
      | String c _ => Str.is_space3 a b c
      end
  end.
Proof. reflexivity. Qed.

Lemma lstrip_no_space (s : string) :
  Str.starts_with_space (Str.lstrip s) = false.
Proof.
  remember (String.length s) as n eqn:Hn. revert s Hn.
  induction n as [n IH] using lt_wf_ind. intros s Hn. subst n.
  destruct s as [|a r1]; [reflexivity|].
  rewrite lstrip_cons. destruct (Str.is_space a) eqn:Ea.
  { apply (IH (String.length r1)); [simpl; lia|reflexivity]. }
  destruct r1 as [|b r2].
  { rewrite starts_with_space_cons, Ea. reflexivity. }
  destruct (Str.is_space2 a b) eqn:Eb.
  { apply (IH (String.length r2)); [simpl; lia|reflexivity]. }
  destruct r2 as [|c r3].
  { rewrite starts_with_space_cons, Ea, Eb. reflexivity. }
  destruct (Str.is_space3 a b c) eqn:Ec.
  { apply (IH (String.length r3)); [simpl; lia|reflexivity]. }
  rewrite starts_with_space_cons, Ea, Eb, Ec. reflexivity.
Qed.

Lemma lstrip_fixed (s : string) :
  Str.starts_with_space s = false -> Str.lstrip s = s.
Proof.
  destruct s as [|a r1]; [reflexivity|].
  rewrite starts_with_space_cons, lstrip_cons. intros H.
  apply orb_false_iff in H as [Ea H]. rewrite Ea.
  destruct r1 as [|b r2]; [reflexivity|].
  apply orb_false_iff in H as [Eb H]. rewrite Eb.
  destruct r2 as [|c r3]; [reflexivity|]. now rewrite H.
Qed.

Lemma starts_with_space_append (p t : string) :
  Str.starts_with_space p = true -> Str.starts_with_space (p ++ t) = true.
Proof.
  destruct p as [|a r1]; [discriminate|].
  cbn [append]. rewrite !starts_with_space_cons.
  destruct (Str.is_space a); [reflexivity|]. simpl orb.
  destruct r1 as [|b r2]; [discriminate|]. cbn [append].
  destruct (Str.is_space2 a b); [reflexivity|]. simpl orb.
  destruct r2 as [|c r3]; [discriminate|]. cbn [append]. auto.
Qed.

Lemma all_space_append (x y : string) :
  Str.all_space x = true -> Str.all_space y = true ->
  Str.all_space (x ++ y) = true.
Proof.
  intros Hx Hy. remember (String.length x) as n eqn:Hn. revert x Hn Hx.
  induction n as [n IH] using lt_wf_ind. intros x Hn Hx. subst n.
  destruct x as [|a r1]; [assumption|].
  cbn [append]. rewrite all_space_cons in *.
  destruct (Str.is_space a).
  { apply (IH (String.length r1)); [simpl; lia|reflexivity|assumption]. }
  destruct r1 as [|b r2]; [discriminate|]. cbn [append].
  destruct (Str.is_space2 a b).
  { apply (IH (String.length r2)); [simpl; lia|reflexivity|assumption]. }
  destruct r2 as [|c r3]; [discriminate|]. cbn [append].
  apply andb_true_iff in Hx as [Hc Hx]. rewrite Hc. simpl andb.
  apply (IH (String.length r3)); [simpl; lia|reflexivity|assumption].
Qed.

(** [rstrip] cuts white space off the end only. *)
Lemma rstrip_split (s : string) :
  exists tail,
    s = (Str.rstrip s ++ tail)%string /\ Str.all_space tail = true.
Proof.
  induction s as [|c rest IH]; [now exists EmptyString|].
  rewrite rstrip_cons. destruct (Str.all_space (String c rest)) eqn:E.
  - exists (String c rest). auto.
  - destruct IH as (tail & Hs & Ht). exists tail. cbn [append].
    split; [now rewrite <- Hs|assumption].
Qed.

Lemma rstrip_no_space_suffix (s : string) :
  forall front w,
    Str.rstrip s = (front ++ w)%string -> w <> EmptyString ->
    Str.all_space w = false.
Proof.
  induction s as [|c rest IH]; intros front w E Hw.
  - destruct front; [simpl in E; congruence|discriminate].
  - rewrite rstrip_cons in E.
    destruct (Str.all_space (String c rest)) eqn:A.
    + destruct front; [simpl in E; congruence|discriminate].
    + destruct front as [|x front]; cbn [append] in E.
      * subst w. destruct (Str.all_space (String c (Str.rstrip rest))) eqn:B;
          [|reflexivity].
        destruct (rstrip_split rest) as (tail & Hs & Ht).
        pose proof (all_space_append _ _ B Ht) as C.
        cbn [append] in C. rewrite <- Hs in C. congruence.
      * injection E as _ E. now apply (IH front w).
Qed.

Lemma rstrip_fixed (t : string) :
  (forall front w, t = (front ++ w)%string -> w <> EmptyString ->
                   Str.all_space w = false) ->
  Str.rstrip t = t.
Proof.
  induction t as [|c rest IH]; intros H; [reflexivity|].
  rewrite rstrip_cons.
  rewrite (H EmptyString (String c rest) eq_refl) by discriminate.
  f_equal. apply IH. intros front w E Hw.
  apply (H (String c front) w); [now rewrite E|assumption].
Qed.

Lemma strip_no_space_start (s : string) :
  Str.starts_with_space (Str.strip s) = false.
Proof.
  unfold Str.strip.
  destruct (Str.starts_with_space (Str.rstrip (Str.lstrip s))) eqn:E;
    [|reflexivity].
  destruct (rstrip_split (Str.lstrip s)) as (tail & Hs & _).
  apply (starts_with_space_append _ tail) in E. rewrite <- Hs in E.
  now rewrite lstrip_no_space in E.
Qed.

Lemma strip_idempotent (s : string) : Str.strip (Str.strip s) = Str.strip s.
Proof.
  unfold Str.strip at 1. rewrite (lstrip_fixed _ (strip_no_space_start s)).
  apply rstrip_fixed. unfold Str.strip. apply rstrip_no_space_suffix.
Qed.

Example strip_unicode :
  Str.strip (String (ascii_of_nat 194) (String (ascii_of_nat 160)
               ("Debt" ++ String (ascii_of_nat 226) (String (ascii_of_nat 128)
                  (String (ascii_of_nat 137) (String (ascii_of_nat 28) ""))))))
  = "Debt".
Proof. reflexivity. Qed.

Example blank_label_nbsp :
  blank_label (PStr (String (ascii_of_nat 194) (String (ascii_of_nat 160) " "))
                    None) = true.
Proof. reflexivity. Qed.

(** X3.  The label of every recorded variable row, hence the variable of
    every record, is not empty, does not start and does not end with a
    white-space character of [str.isspace], and stripping it again changes
    nothing. *)
Theorem labels_are_trimmed (df : DataFrame) (year_row : nat) (label : string)
    (r : nat) :
  In (label, r) (var_rows_of df year_row) ->
  label <> EmptyString /\
  Str.strip label = label /\
  Str.starts_with_space label = false /\
  (forall front w, label = (front ++ w)%string -> w <> EmptyString ->
                   Str.all_space w = false).
Proof.
  intros H. apply var_rows_in in H as (_ & Hb & ->).
  unfold blank_label in Hb. apply orb_false_iff in Hb as [_ Hb].
  split; [|split; [|split]].
  - intros E. rewrite E in Hb. discriminate.
  - apply strip_idempotent.
  - apply strip_no_space_start.
  - unfold Str.strip. apply rstrip_no_space_suffix.
Qed.

Lemma labels_are_trimmed_witness :
  In ("Revenue", 2) (var_rows_of sheet_small 0) /\
  "Revenue" <> EmptyString /\
  Str.strip "Revenue" = "Revenue" /\
  Str.starts_with_space "Revenue" = false /\
  (forall front w, "Revenue" = (front ++ w)%string -> w <> EmptyString ->
                   Str.all_space w = false).
Proof.
  assert (H : In ("Revenue", 2) (var_rows_of sheet_small 0))
    by (left; reflexivity).
  split; [exact H|].
  exact (labels_are_trimmed sheet_small 0 "Revenue" 2 H).
Defined.

(** ** Row-major order *)

Lemma StronglySorted_app {A : Type} (R : A -> A -> Prop) (l1 l2 : list A) :
  StronglySorted R l1 -> StronglySorted R l2 ->
  (forall x y, In x l1 -> In y l2 -> R x y) ->
  StronglySorted R (l1 ++ l2).
Proof.
  induction l1 as [|a l1 IH]; intros H1 H2 H12; simpl; [assumption|].
  apply StronglySorted_inv in H1 as [H1 Ha]. constructor.
  - apply IH; [assumption|assumption|]. intros x y Hx. apply H12. now right.
  - apply Forall_app. split; [assumption|].
    apply Forall_forall. intros y Hy. apply H12; [now left|assumption].
Qed.

Lemma StronglySorted_lt_NoDup {A : Type} (R : A -> A -> Prop) (l : list A) :
  (forall x, ~ R x x) -> StronglySorted R l -> NoDup l.
Proof.
  intros Hirr. induction 1 as [|a l Hs IH Ha]; constructor; [|assumption].
  intros Hin. rewrite Forall_forall in Ha. apply (Hirr a). now apply Ha.
Qed.

Lemma map_snd_combine {A B : Type} (l : list A) (l' : list B) :
  List.length l = List.length l' -> map snd (combine l l') = l'.
Proof.
  revert l'. induction l as [|x l IH]; intros [|y l'] E; simpl in *;
    try discriminate; [reflexivity|].
  f_equal. apply IH. now injection E.
Qed.

Lemma scan_labels_sorted (df : DataFrame) :
  forall n a empty_streak,
    StronglySorted lt (map snd (scan_labels df (seq a n) empty_streak)).
Proof.
  induction n as [|n IH]; intros a s; [constructor|].
  cbn [seq]. rewrite scan_labels_cons.
  destruct (blank_label (iat df a 0)).
  - destruct (5 <=? S s); [constructor|apply IH].
  - simpl. constructor; [apply IH|].
    apply Forall_forall. intros r Hr.
    apply in_map_iff in Hr as ([label r'] & <- & Hin).
    apply scan_labels_in in Hin as (Hin & _). apply in_seq in Hin. simpl. lia.
Qed.

Lemma year_loop_sorted (df : DataFrame) (year_row : nat) :
  forall raw offset vy vc vy' vc',
    year_loop df year_row offset raw vy vc = Ok (vy', vc') ->
    exists cols,
      vc' = vc ++ cols /\ StronglySorted lt cols /\
      Forall (fun c => 4 + offset <= c) cols.
Proof.
  induction raw as [|yr rest IH]; intros offset vy vc vy' vc' H.
  - simpl in H. injection H as <- <-. exists []. rewrite app_nil_r.
    repeat constructor.
  - rewrite year_loop_cons in H.
    destruct (isna yr || negb (column_kept df year_row (4 + offset))).
    + destruct (IH _ _ _ _ _ H) as (cols & E & Hs & Hf).
      exists cols. repeat split; try assumption.
      eapply Forall_impl; [|exact Hf]. simpl. intros c Hc. lia.
    + destruct (py_int yr) as [y|e]; simpl in H; [|discriminate].
      destruct (IH _ _ _ _ _ H) as (cols & E & Hs & Hf).
      exists ((4 + offset) :: cols). split; [now rewrite E, <- app_assoc|].
      split.
      * constructor; [assumption|].
        eapply Forall_impl; [|exact Hf]. simpl. intros c Hc. lia.
      * constructor; [lia|].
        eapply Forall_impl; [|exact Hf]. simpl. intros c Hc. lia.
Qed.

Lemma row_major_irrefl (p : nat * nat) : ~ row_major p p.
Proof. unfold row_major. lia. Qed.

Lemma record_sources_sorted (df : DataFrame) (var_rows : list (string * nat))
    (cols : list (Z * nat)) :
  StronglySorted lt (map snd var_rows) -> StronglySorted lt (map snd cols) ->
  StronglySorted row_major (map position (record_sources df var_rows cols)).
Proof.
  intros Hv Hc. unfold record_sources.
  induction var_rows as [|lr var_rows IH]; simpl; [constructor|].
  simpl in Hv. apply StronglySorted_inv in Hv as [Hv Hlr].
  rewrite map_app. apply StronglySorted_app.
  - clear IH Hv Hlr. induction cols as [|yc cols IHc]; simpl; [constructor|].
    simpl in Hc. apply StronglySorted_inv in Hc as [Hc Hyc].
    rewrite map_app. apply StronglySorted_app.
    + destruct (isna (iat df (snd lr) (snd yc))); simpl; repeat constructor.
    + now apply IHc.
    + intros x y Hx Hy.
      destruct (isna (iat df (snd lr) (snd yc))); [contradiction|].
      destruct Hx as [<-|[]].
      apply in_map_iff in Hy as (s & <- & Hs).
      apply in_flat_map in Hs as (yc' & Hyc' & Hs).
      destruct (isna (iat df (snd lr) (snd yc'))); [contradiction|].
      destruct Hs as [<-|[]]. right. simpl. split; [reflexivity|].
      rewrite Forall_forall in Hyc. apply Hyc. now apply in_map.
  - now apply IH.
  - intros x y Hx Hy.
    apply in_map_iff in Hx as (s & <- & Hs).
    apply in_flat_map in Hs as (yc & _ & Hs).
    destruct (isna (iat df (snd lr) (snd yc))); [contradiction|].
    destruct Hs as [<-|[]].
    apply in_map_iff in Hy as (s' & <- & Hs').
    apply in_flat_map in Hs' as (lr' & Hlr' & Hs').
    apply in_flat_map in Hs' as (yc' & _ & Hs').
    destruct (isna (iat df (snd lr') (snd yc'))); [contradiction|].
    destruct Hs' as [<-|[]]. left. simpl.
    rewrite Forall_forall in Hlr. apply Hlr. now apply in_map.
Qed.

(** X4.  The records are appended in row-major order of the worksheet:
    the variable rows are visited from top to bottom and, within a row, the
    retained year columns from left to right; so the (row, column) positions
    of the records are strictly increasing and no cell gives two records. *)
Theorem records_in_row_major_order (st : option string) (ci : string)
    (df : DataFrame) (year_row : nat) (valid_years : list Z)
    (valid_cols : list nat) :
  year_loop df year_row 0 (loc_row df year_row 4) [] []
    = Ok (valid_years, valid_cols) ->
  StronglySorted lt (map snd (var_rows_of df year_row)) /\
  StronglySorted lt valid_cols /\
  build_records st ci df (var_rows_of df year_row)
      (combine valid_years valid_cols)
    = map (record_at st ci df)
        (record_sources df (var_rows_of df year_row)
           (combine valid_years valid_cols)) /\
  StronglySorted row_major
    (map position
       (record_sources df (var_rows_of df year_row)
          (combine valid_years valid_cols))) /\
  NoDup
    (map position
       (record_sources df (var_rows_of df year_row)
          (combine valid_years valid_cols))).
Proof.
  intros Ey.
  assert (Hv : StronglySorted lt (map snd (var_rows_of df year_row)))
    by apply scan_labels_sorted.
  assert (Hc : StronglySorted lt valid_cols).
  { destruct (year_loop_sorted _ _ _ _ _ _ _ _ Ey) as (cols & -> & Hs & _).
    exact Hs. }
  assert (Hs : StronglySorted row_major
                 (map position
                    (record_sources df (var_rows_of df year_row)
                       (combine valid_years valid_cols)))).
  { apply record_sources_sorted; [assumption|].
    destruct (year_loop_inv _ _ _ _ _ _ _ _ Ey eq_refl) as (L & _).
    now rewrite map_snd_combine. }
  split; [assumption|]. split; [assumption|].
  split; [apply build_records_sources|]. split; [assumption|].
  eapply StronglySorted_lt_NoDup; [exact row_major_irrefl|assumption].
Qed.

Lemma records_in_row_major_order_witness :
  StronglySorted lt (map snd (var_rows_of sheet_2024 0)) /\
  StronglySorted lt [4] /\
  build_records (Some "MB") "Steinbach" sheet_2024 (var_rows_of sheet_2024 0)
      (combine [2023%Z] [4])
    = map (record_at (Some "MB") "Steinbach" sheet_2024)
        (record_sources sheet_2024 (var_rows_of sheet_2024 0)
           (combine [2023%Z] [4])) /\
  StronglySorted row_major
    (map position
       (record_sources sheet_2024 (var_rows_of sheet_2024 0)
          (combine [2023%Z] [4]))) /\
  NoDup
    (map position
       (record_sources sheet_2024 (var_rows_of sheet_2024 0)
          (combine [2023%Z] [4]))).
Proof.
  apply (records_in_row_major_order (Some "MB") "Steinbach" sheet_2024 0
           [2023%Z] [4]).
  reflexivity.
Defined.

(** ** How a call ends *)

Lemma py_int_raises (x : cell) (e : string) :
  py_int x = Raise e -> e = "ValueError" \/ e = "TypeError".
Proof.
  destruct x as [|z|q repr|b|s0 i|repr]; simpl; try discriminate.
  - intros [= <-]. now left.
  - destruct i; [discriminate|]. intros [= <-]. now left.
  - intros [= <-]. now right.
Qed.

Lemma year_loop_raises (df : DataFrame) (year_row : nat) :
  forall raw offset vy vc e,
    year_loop df year_row offset raw vy vc = Raise e ->
    exists k c, nth_error raw k = Some c /\ isna c = false /\
                column_kept df year_row (4 + offset + k) = true /\
                py_int c = Raise e.
Proof.
  induction raw as [|yr rest IH]; intros offset vy vc e H; [discriminate|].
  rewrite year_loop_cons in H.
  destruct (isna yr || negb (column_kept df year_row (4 + offset))) eqn:Skip.
  - destruct (IH _ _ _ _ H) as (k & c & E & Hna & Hk & Hi).
    exists (S k), c. repeat split; try assumption.
    now replace (4 + offset + S k) with (4 + S offset + k) by lia.
  - apply orb_false_iff in Skip as [Hna0 Hk0]. apply negb_false_iff in Hk0.
    destruct (py_int yr) as [y|e0] eqn:Ey; simpl in H.
    + destruct (IH _ _ _ _ H) as (k & c & E & Hna & Hk & Hi).
      exists (S k), c. repeat split; try assumption.
      now replace (4 + offset + S k) with (4 + S offset + k) by lia.
    + injection H as <-. exists 0, yr. rewrite Nat.add_0_r. auto.
Qed.

(** X5.  Once [pd.read_excel] has returned the sheet, the part of
    [tidy_from_file] that builds the list of records (lines 31 to 89) either
    completes, exactly when a header row is found and the header cell of
    every year column with data converts to an integer, or raises one of four
    exceptions: [KeyError] when the sheet has fewer than five columns,
    [IndexError] when column 4 holds no year, and the [ValueError] or
    [TypeError] of [int()] on the header cell of a year column with data.
    What [pd.read_excel] itself and [pd.DataFrame.from_records] may raise is
    outside this statement. *)
Theorem tidy_records_outcome (path : string) (df : DataFrame) :
  match tidy_records path df with
  | Ok _ => exists year_row,
      find_year_row df = Ok year_row /\ headers_convert df year_row
  | Raise e =>
      (e = "KeyError" /\ ncols df < 5) \/
      (e = "IndexError" /\ 5 <= ncols df /\
       forall r, r < nrows df -> is_year_value (iat df r 4) = false) \/
      ((e = "ValueError" \/ e = "TypeError") /\
       exists year_row col,
         find_year_row df = Ok year_row /\
         4 <= col < ncols df /\ isna (iat df year_row col) = false /\
         column_kept df year_row col = true /\
         py_int (iat df year_row col) = Raise e)
  end.
Proof.
  unfold tidy_records.
  destruct (labels_of_name_total (name_no_ext path)) as [sc ->]. simpl.
  destruct (find_year_row df) as [yr|e] eqn:Eh; simpl.
  - destruct (year_loop df yr 0 (loc_row df yr 4) [] []) as [[vy vc]|e] eqn:Ey;
      simpl.
    + exists yr. split; [reflexivity|]. intros col Hcol Hna Hk.
      destruct (valid_cols_spec _ _ _ _ Ey) as (_ & Hiff & Hkept).
      destruct (Hkept col Hcol Hna Hk) as [y Hy]. exists y. now apply Hiff in Hy.
    + right. right.
      destruct (year_loop_raises _ _ _ _ _ _ _ Ey) as (k & c & E & Hna & Hk & Hi).
      apply nth_error_loc_row in E as [Hlt ->].
      replace (4 + 0 + k) with (4 + k) in Hk by lia.
      split; [now apply py_int_raises in Hi|].
      exists yr, (4 + k). repeat split; try assumption; lia.
  - unfold find_year_row in Eh. destruct (ncols df <? 5) eqn:W.
    + injection Eh as <-. left. apply Nat.ltb_lt in W. auto.
    + destruct (find _ _) eqn:F; [discriminate|]. injection Eh as <-.
      right. left. apply Nat.ltb_ge in W. repeat split; try assumption.
      intros r Hr. apply (find_none _ _ F). apply in_range. lia.
Qed.

(** ** Every non-blank cell of the table is emitted *)

(** X6.  Conversely to the provenance of records: for every recorded
    variable row and every candidate year column whose segment holds data, a
    non-blank cell at their crossing is in the returned frame, as the row
    with the label of the variable row, the integer of the header cell and
    the content of the cell as [pd.DataFrame.from_records] stores it: the
    cell itself, or the float of an integer cell when the value column is
    made [float64]. *)
Theorem nonblank_cell_is_emitted (path : string) (df : DataFrame)
    (rows : list row) (sc : option string * string) (year_row : nat)
    (label : string) (r col : nat) :
  tidy_from_file path df = Ok rows ->
  labels_of_name (name_no_ext path) = Ok sc ->
  find_year_row df = Ok year_row ->
  In (label, r) (var_rows_of df year_row) ->
  4 <= col < ncols df -> isna (iat df year_row col) = false ->
  ~ segment_blank_or_zero df year_row col ->
  isna (iat df r col) = false ->
  exists y v,
    py_int (iat df year_row col) = Ok y /\
    coerced (iat df r col) v /\
    In (mk_record (fst sc) (snd sc) label y v) rows.
Proof.
  intros H El Eh Hr Hcol Hna Hseg Hcell.
  destruct (tidy_from_file_ok _ _ _ H) as (recs & Hrec & Hfr).
  destruct (tidy_records_ok _ _ _ Hrec)
    as (sc' & yr & vy & vc & El' & Eh' & Ey & ->).
  rewrite El in El'. injection El' as <-.
  rewrite Eh in Eh'. injection Eh' as <-.
  assert (Hk : column_kept df year_row col = true).
  { destruct (column_kept df year_row col) eqn:K; [reflexivity|].
    apply column_kept_false_iff in K. contradiction. }
  destruct (valid_cols_spec _ _ _ _ Ey) as (_ & Hiff & Hkept).
  destruct (Hkept col Hcol Hna Hk) as [y Hy].
  assert (Hin : In (mk_record (fst sc) (snd sc) label y (iat df r col))
                  (build_records (fst sc) (snd sc) df
                     (var_rows_of df year_row) (combine vy vc))).
  { rewrite build_records_sources. apply in_map_iff.
    exists ((label, r), (y, col)). split; [reflexivity|].
    apply in_record_sources. simpl. auto. }
  destruct (from_records_in_rev _ _ _ Hfr Hin) as (r0 & Hr0 & Hst).
  destruct r0 as [st ci va ye v]. unfold stored in Hst. simpl in Hst.
  destruct Hst as (-> & -> & -> & -> & Hv).
  exists y, v. split; [now apply Hiff in Hy|]. split; assumption.
Qed.

Lemma nonblank_cell_is_emitted_witness :
  exists y v,
    py_int (iat sheet_2024 0 4) = Ok y /\
    coerced (iat sheet_2024 3 4) v /\
    In (mk_record (fst (Some "MB", "Steinbach")) (snd (Some "MB", "Steinbach"))
          "Debt" y v)
       [mk_record (Some "MB") "Steinbach" "Revenue" 2023 (Same (PInt 7));
        mk_record (Some "MB") "Steinbach" "Debt" 2023 (Same (PInt 3))].
Proof.
  apply (nonblank_cell_is_emitted "MB_Steinbach.xlsx" sheet_2024 _
           (Some "MB", "Steinbach") 0 "Debt" 3 4).
  - reflexivity.
  - reflexivity.
  - reflexivity.
  - right. left. reflexivity.
  - vm_compute. lia.
  - reflexivity.
  - exact (proj2 sheet_2024_segments).
  - reflexivity.
Defined.

(** ** The table written by [main] *)

Lemma fold_disk_frames (read_excel : string -> result DataFrame)
    (workbooks : list string) :
  forall frames,
    List.concat
      (fold_left
         (fun frames wb =>
            match tidy_from_disk read_excel wb with
            | Ok df => match df with
                       | [] => frames
                       | _ :: _ => frames ++ [df]
                       end
            | Raise _ => frames
            end)
         workbooks frames)
    = List.concat frames ++ flat_map (disk_frame read_excel) workbooks.
Proof.
  induction workbooks as [|wb workbooks IH]; intros frames; simpl.
  - now rewrite app_nil_r.
  - rewrite IH. unfold disk_frame at 2.
    destruct (tidy_from_disk read_excel wb) as [[|rec recs]|e];
      try reflexivity.
    rewrite concat_app. simpl. now rewrite app_nil_r, <- app_assoc.
Qed.

Lemma fold_disk_frames_nonempty (read_excel : string -> result DataFrame)
    (workbooks : list string) :
  forall frames,
    Forall (fun f => f <> []) frames ->
    Forall (fun f : list row => f <> [])
      (fold_left
         (fun frames wb =>
            match tidy_from_disk read_excel wb with
            | Ok df => match df with
                       | [] => frames
                       | _ :: _ => frames ++ [df]
                       end
            | Raise _ => frames
            end)
         workbooks frames).
Proof.
  induction workbooks as [|wb workbooks IH]; intros frames H; simpl;
    [assumption|].
  apply IH. destruct (tidy_from_disk read_excel wb) as [[|rec recs]|e];
    try assumption.
  apply Forall_app. split; [assumption|]. constructor; [discriminate|constructor].
Qed.

(** X7.  The table that [main] writes is the concatenation, in the order of
    the glob, of the records of the workbooks that are not Excel lock files
    (base name starting with [~$]) and whose reading and extraction return;
    [main] exits without a table exactly when that concatenation is empty. *)
Theorem main_writes_concatenation (read_excel : string -> result DataFrame)
    (globbed : list string) :
  main read_excel globbed =
  match flat_map (disk_frame read_excel) (find_workbooks globbed) with
  | [] => None
  | rec :: recs => Some (rec :: recs)
  end.
Proof.
  unfold main. destruct (find_workbooks globbed) as [|wb wbs] eqn:E;
    [reflexivity|].
  pose proof (fold_disk_frames read_excel (wb :: wbs) []) as Hc.
  pose proof (fold_disk_frames_nonempty read_excel (wb :: wbs) []
                (Forall_nil _)) as Hne.
  change (List.concat [] ++ flat_map (disk_frame read_excel) (wb :: wbs))
    with (flat_map (disk_frame read_excel) (wb :: wbs)) in Hc.
  destruct (fold_left _ (wb :: wbs) []) as [|f fs] eqn:F.
  - now rewrite <- Hc.
  - rewrite <- Hc. apply Forall_inv in Hne.
    destruct f as [|rec recs]; [contradiction|]. reflexivity.
Qed.

Lemma find_workbooks_app (l1 l2 : list string) :
  find_workbooks (l1 ++ l2) = find_workbooks l1 ++ find_workbooks l2.
Proof. apply filter_app. Qed.

(** X8.  A path that is an Excel lock file, or whose workbook cannot be
    read, or whose extraction raises or gives no record, changes nothing in
    the table: [main] gives the same result as without that path. *)
Theorem skipped_workbook_changes_nothing
    (read_excel : string -> result DataFrame) (before after : list string)
    (path : string) :
  String.prefix "~$" (OsPath.basename path) = true \/
  (exists e, read_excel path = Raise e) \/
  (exists df, read_excel path = Ok df /\
              (tidy_from_file path df = Ok [] \/
               exists e, tidy_from_file path df = Raise e)) ->
  main read_excel (before ++ path :: after) = main read_excel (before ++ after).
Proof.
  intros H. rewrite !main_writes_concatenation.
  change (path :: after) with ([path] ++ after).
  rewrite !find_workbooks_app, !flat_map_app.
  replace (flat_map (disk_frame read_excel) (find_workbooks [path])) with
    (@nil row); [reflexivity|].
  unfold find_workbooks. simpl.
  destruct (String.prefix "~$" (OsPath.basename path)) eqn:P; [reflexivity|].
  simpl. rewrite app_nil_r. unfold disk_frame, tidy_from_disk.
  destruct (labels_of_name_total (name_no_ext path)) as [sc ->]. simpl.
  destruct H as [H|[[e E]|(df & E & [E'|[e E']])]]; [discriminate| | |];
    rewrite E; simpl; [reflexivity| |]; rewrite E'; reflexivity.
Qed.

Lemma skipped_workbook_changes_nothing_witness :
  String.prefix "~$" (OsPath.basename "/data/~$AZ_Mesa.xlsx") = true /\
  main (fun _ => Ok sheet_small)
       (["/data/AZ_Mesa.xlsx"] ++ "/data/~$AZ_Mesa.xlsx" :: ["/data/AZ_Yuma.xlsx"])
  = main (fun _ => Ok sheet_small)
         (["/data/AZ_Mesa.xlsx"] ++ ["/data/AZ_Yuma.xlsx"]).
Proof.
  split; [reflexivity|].
  apply (skipped_workbook_changes_nothing (fun _ => Ok sheet_small)
           ["/data/AZ_Mesa.xlsx"] ["/data/AZ_Yuma.xlsx"]
           "/data/~$AZ_Mesa.xlsx").
  left. reflexivity.
Defined.

(** * The scraper *)

Import Scraper.

(** ** The export link *)

Lemma id_run_all (s : string) :
  forallb is_id_char (list_ascii_of_string (id_run s)) = true.
Proof.
  induction s as [|c s IH]; simpl; [reflexivity|].
  destruct (is_id_char c) eqn:E; simpl; [|reflexivity]. now rewrite E.
Qed.

Lemma id_run_split (s : string) :
  exists rest,
    s = (id_run s ++ rest)%string /\
    match rest with
    | EmptyString => True
    | String c _ => is_id_char c = false
    end.
Proof.
  induction s as [|c s IH]; simpl.
  - exists EmptyString. auto.
  - destruct (is_id_char c) eqn:E.
    + destruct IH as (rest & Hs & Hr). exists rest. simpl.
      split; [now rewrite <- Hs|assumption].
    + exists (String c s). auto.
Qed.

Lemma id_run_app (file_id rest : string) :
  forallb is_id_char (list_ascii_of_string file_id) = true ->
  match rest with
  | EmptyString => True
  | String c _ => is_id_char c = false
  end ->
  id_run (file_id ++ rest) = file_id.
Proof.
  intros Hid Hrest. induction file_id as [|c s IH]; simpl in *.
  - destruct rest as [|c rest]; simpl; [reflexivity|]. now rewrite Hrest.
  - apply andb_true_iff in Hid as [Hc Hs]. rewrite Hc. f_equal. now apply IH.
Qed.

Lemma match_here_some (s file_id : string) :
  match_here s = Some file_id ->
  exists t, s = ("/d/" ++ t)%string /\ file_id = id_run t /\
            file_id <> EmptyString.
Proof.
  unfold match_here.
  destruct s as [|a [|b [|c t]]]; try discriminate.
  destruct (Ascii.eqb_spec a "/") as [->|]; simpl; [|discriminate].
  destruct (Ascii.eqb_spec b "d") as [->|]; simpl; [|discriminate].
  destruct (Ascii.eqb_spec c "/") as [->|]; simpl; [|discriminate].
  destruct (id_run t) as [|x r] eqn:E; [discriminate|].
  intros [= <-]. exists t. rewrite E. repeat split. discriminate.
Qed.

Lemma match_here_slash_d (t : string) :
  match_here ("/d/" ++ t) =
  match id_run t with
  | EmptyString => None
  | file_id => Some file_id
  end.
Proof. reflexivity. Qed.

Lemma search_file_id_some (s file_id : string) :
  search_file_id s = Some file_id ->
  exists pre rest,
    s = (pre ++ "/d/" ++ file_id ++ rest)%string /\
    file_id <> EmptyString /\
    forallb is_id_char (list_ascii_of_string file_id) = true /\
    match rest with
    | EmptyString => True
    | String c _ => is_id_char c = false
    end.
Proof.
  induction s as [|a s IH]; [discriminate|].
  cbn [search_file_id].
  destruct (match_here (String a s)) as [found|] eqn:M.
  - intros [= ->]. apply match_here_some in M as (t & Hs & -> & Hne).
    destruct (id_run_split t) as (rest & Ht & Hrest).
    exists EmptyString, rest. rewrite Hs. simpl.
    split; [now rewrite <- Ht|]. split; [assumption|].
    split; [apply id_run_all|assumption].
  - intros H. destruct (IH H) as (pre & rest & -> & Hne & Hall & Hrest).
    exists (String a pre), rest. auto.
Qed.

Lemma search_file_id_finds (pre rest : string) (c : ascii) :
  is_id_char c = true ->
  exists file_id,
    search_file_id (pre ++ "/d/" ++ String c rest) = Some file_id.
Proof.
  intros Hc. induction pre as [|a pre IH].
  - change (search_file_id ("" ++ "/d/" ++ String c rest))
      with (match match_here ("/d/" ++ String c rest) with
            | Some file_id => Some file_id
            | None => search_file_id ("d/" ++ String c rest)
            end).
    rewrite match_here_slash_d. cbn [id_run]. rewrite Hc. eauto.
  - change (search_file_id (String a pre ++ "/d/" ++ String c rest))
      with (match match_here (String a (pre ++ "/d/" ++ String c rest)) with
            | Some file_id => Some file_id
            | None => search_file_id (pre ++ "/d/" ++ String c rest)
            end).
    destruct (match_here _); eauto.
Qed.

(** X9.  [to_excel_url] returns exactly when the URL contains ["/d/"]
    followed by a character of [[A-Za-z0-9_-]]; the file id it puts into the
    export link is then a non-empty run of such characters that follows a
    ["/d/"] of the URL and stops at the first other character.  Otherwise
    it raises [ValueError]. *)
Theorem to_excel_url_outcome (sheet_url : string) :
  match to_excel_url sheet_url with
  | Ok url =>
      exists pre file_id rest,
        sheet_url = (pre ++ "/d/" ++ file_id ++ rest)%string /\
        file_id <> EmptyString /\
        forallb is_id_char (list_ascii_of_string file_id) = true /\
        match rest with
        | EmptyString => True
        | String c _ => is_id_char c = false
        end /\
        url = ("https://docs.google.com/spreadsheets/d/" ++ file_id
               ++ "/export?format=xlsx")%string
  | Raise e =>
      e = "ValueError" /\
      forall pre c rest,
        is_id_char c = true ->
        sheet_url <> (pre ++ "/d/" ++ String c rest)%string
  end.
Proof.
  unfold to_excel_url.
  destruct (search_file_id sheet_url) as [file_id|] eqn:S.
  - apply search_file_id_some in S as (pre & rest & E & Hne & Hall & Hrest).
    exists pre, file_id, rest. auto.
  - split; [reflexivity|]. intros pre c rest Hc ->.
    destruct (search_file_id_finds pre rest c Hc) as [file_id E]. congruence.
Qed.

Lemma search_sheet_link (t : string) :
  id_run t <> EmptyString ->
  search_file_id ("https://docs.google.com/spreadsheets/d/" ++ t)
  = Some (id_run t).
Proof.
  intros H.
  change (search_file_id ("https://docs.google.com/spreadsheets/d/" ++ t))
    with (match match_here ("/d/" ++ t) with
          | Some file_id => Some file_id
          | None => search_file_id ("d/" ++ t)
          end).
  rewrite match_here_slash_d. destruct (id_run t); [contradiction|reflexivity].
Qed.

(** X10.  For a link of the usual form, the Sheets prefix followed by a
    non-empty id of characters of [[A-Za-z0-9_-]] and anything that does not
    continue the id, [to_excel_url] returns the export link of that id. *)
Theorem to_excel_url_of_sheet_link (file_id rest : string) :
  file_id <> EmptyString ->
  forallb is_id_char (list_ascii_of_string file_id) = true ->
  match rest with
  | EmptyString => True
  | String c _ => is_id_char c = false
  end ->
  to_excel_url ("https://docs.google.com/spreadsheets/d/" ++ file_id ++ rest)
  = Ok ("https://docs.google.com/spreadsheets/d/" ++ file_id
        ++ "/export?format=xlsx")%string.
Proof.
  intros Hne Hall Hrest. unfold to_excel_url.
  rewrite search_sheet_link; rewrite (id_run_app _ _ Hall Hrest);
    [reflexivity|assumption].
Qed.

Lemma to_excel_url_of_sheet_link_witness :
  "1AbC-d_9" <> EmptyString /\
  to_excel_url "https://docs.google.com/spreadsheets/d/1AbC-d_9/edit#gid=0"
  = Ok "https://docs.google.com/spreadsheets/d/1AbC-d_9/export?format=xlsx".
Proof.
  split; [discriminate|].
  apply (to_excel_url_of_sheet_link "1AbC-d_9" "/edit#gid=0");
    [discriminate|reflexivity|reflexivity].
Defined.

(** X11.  An export link is a fixed point: applying [to_excel_url] to a
    link it returned gives the same link. *)
Theorem to_excel_url_idempotent (sheet_url url : string) :
  to_excel_url sheet_url = Ok url -> to_excel_url url = Ok url.
Proof.
  intros H. pose proof (to_excel_url_outcome sheet_url) as O. rewrite H in O.
  destruct O as (pre & file_id & rest & _ & Hne & Hall & _ & ->).
  now apply (to_excel_url_of_sheet_link file_id "/export?format=xlsx").
Qed.

Lemma to_excel_url_idempotent_witness :
  to_excel_url "https://docs.google.com/open?x=/d/1AbC-d_9&usp=sharing"
    = Ok "https://docs.google.com/spreadsheets/d/1AbC-d_9/export?format=xlsx" /\
  to_excel_url "https://docs.google.com/spreadsheets/d/1AbC-d_9/export?format=xlsx"
    = Ok "https://docs.google.com/spreadsheets/d/1AbC-d_9/export?format=xlsx".
Proof.
  split; [reflexivity|].
  apply (to_excel_url_idempotent
           "https://docs.google.com/open?x=/d/1AbC-d_9&usp=sharing").
  reflexivity.
Defined.

(** * File names: from the scraper to the decoder *)

(** ** Base name and extension *)

Lemma contains_append (c : ascii) (a b : string) :
  Str.contains c (a ++ b)%string = Str.contains c a || Str.contains c b.
Proof.
  induction a as [|x a IH]; simpl; [reflexivity|].
  now rewrite IH, orb_assoc.
Qed.

Lemma length_append (a b : string) :
  String.length (a ++ b)%string = String.length a + String.length b.
Proof. induction a as [|x a IH]; simpl; [reflexivity|]. now rewrite IH. Qed.

Lemma rfind_from_absent (c : ascii) (t : string) :
  Str.contains c t = false ->
  forall i last, Str.rfind_from c t i last = last.
Proof.
  induction t as [|x t IH]; simpl; intros H i last; [reflexivity|].
  apply orb_false_iff in H as [Hx Ht]. rewrite Hx. now apply IH.
Qed.

Lemma rfind_from_last (c : ascii) (t : string) :
  Str.contains c t = false ->
  forall s i last,
    Str.rfind_from c (s ++ String c t)%string i last
    = (i + Z.of_nat (String.length s))%Z.
Proof.
  intros Ht. induction s as [|x s IH]; intros i last.
  - simpl. rewrite Ascii.eqb_refl, (rfind_from_absent c t Ht). lia.
  - cbn [append Str.rfind_from String.length]. rewrite IH. lia.
Qed.

Lemma substring_all (s : string) : substring 0 (String.length s) s = s.
Proof. induction s as [|x s IH]; simpl; [reflexivity|]. now rewrite IH. Qed.

Lemma substring_prefix (s t : string) :
  substring 0 (String.length s) (s ++ t)%string = s.
Proof.
  induction s as [|x s IH]; simpl; [now destruct t|]. now rewrite IH.
Qed.

Lemma substring_skip (s t : string) (n m : nat) :
  substring (String.length s + n) m (s ++ t)%string = substring n m t.
Proof. induction s as [|x s IH]; simpl; [reflexivity|]. apply IH. Qed.

Lemma get_append_at (a t : string) (c : ascii) :
  String.get (String.length a) (a ++ String c t)%string = Some c.
Proof. induction a as [|x a IH]; simpl; [reflexivity|]. apply IH. Qed.

Lemma basename_join (folder file : string) :
  Str.contains "/" file = false ->
  OsPath.basename (folder ++ "/" ++ file)%string = file.
Proof.
  intros H. unfold OsPath.basename, Str.rfind, Str.slice_from.
  change ("/" ++ file)%string with (String "/" file).
  rewrite (rfind_from_last "/" file H). rewrite length_append.
  cbn [String.length].
  replace (Z.to_nat (0 + Z.of_nat (String.length folder) + 1))
    with (String.length folder + 1) by lia.
  replace (String.length folder + S (String.length file)
           - (String.length folder + 1)) with (String.length file) by lia.
  rewrite substring_skip. simpl. apply substring_all.
Qed.

Lemma splitext_stem (stem ext : string) :
  Str.contains "/" stem = false -> Str.contains "/" ext = false ->
  Str.contains "." ext = false ->
  (exists k a, k < String.length stem /\
               String.get k (stem ++ String "." ext)%string = Some a /\
               a <> "."%char) ->
  OsPath.splitext (stem ++ "." ++ ext)%string = (stem, ("." ++ ext)%string).
Proof.
  intros Hs He Hd (k & a & Hk & Hget & Ha).
  change ("." ++ ext)%string with (String "." ext).
  unfold OsPath.splitext, Str.rfind.
  rewrite (rfind_from_absent "/" (stem ++ String "." ext)).
  2:{ rewrite contains_append, Hs. simpl. exact He. }
  rewrite (rfind_from_last "." ext Hd). simpl Z.add.
  replace (-1 <? Z.of_nat (String.length stem))%Z with true
    by (symmetry; apply Z.ltb_lt; lia).
  assert (Hstem : OsPath.has_stem (stem ++ String "." ext) 0
                    (Z.of_nat (String.length stem)) = true).
  { unfold OsPath.has_stem. apply existsb_exists. exists k. split.
    - apply in_seq. lia.
    - rewrite Hget. now destruct (Ascii.eqb_spec a "."). }
  rewrite Hstem. simpl andb. cbv iota.
  unfold Str.slice_to, Str.slice_from. rewrite Nat2Z.id, length_append.
  rewrite substring_prefix. f_equal.
  replace (String.length stem + String.length (String "." ext)
           - String.length stem) with (String.length (String "." ext)) by lia.
  rewrite <- (Nat.add_0_r (String.length stem)) at 1.
  rewrite substring_skip. apply substring_all.
Qed.

(** X12.  For a path [folder/stem.ext], where the stem holds no slash and
    at least one character other than the dot, and the extension holds
    neither dot nor slash, the name from which region and locality are read is
    the stem: folders and the extension play no part, whatever the folder. *)
Theorem name_no_ext_of_path (folder stem ext : string) :
  Str.contains "/" stem = false -> Str.contains "/" ext = false ->
  Str.contains "." ext = false ->
  (exists k a, k < String.length stem /\ String.get k stem = Some a /\
               a <> "."%char) ->
  name_no_ext (folder ++ "/" ++ stem ++ "." ++ ext) = stem.
Proof.
  intros Hs He Hd (k & a & Hk & Hget & Ha). unfold name_no_ext.
  rewrite basename_join.
  - rewrite splitext_stem; try assumption; [reflexivity|].
    exists k, a. split; [assumption|]. split; [|assumption].
    clear Hs. revert k Hk Hget.
    induction stem as [|x stem IH]; intros k Hk Hget; [simpl in Hk; lia|].
    destruct k as [|k]; simpl in *; [assumption|]. apply IH; [lia|assumption].
  - rewrite contains_append, Hs. simpl. exact He.
Qed.

Lemma name_no_ext_of_path_witness :
  name_no_ext ("/media/downloaded_xls" ++ "/" ++ "AZ_Bullhead_City" ++ "." ++ "xlsx")
  = "AZ_Bullhead_City".
Proof.
  apply (name_no_ext_of_path "/media/downloaded_xls" "AZ_Bullhead_City" "xlsx");
    try reflexivity.
  exists 0, "A"%char. split; [simpl; lia|]. split; [reflexivity|discriminate].
Defined.

(** ** The name written by the scraper *)

Lemma string_append_assoc (a b c : string) :
  ((a ++ b) ++ c = a ++ b ++ c)%string.
Proof. induction a as [|x a IH]; simpl; [reflexivity|]. now rewrite IH. Qed.

Lemma partition_first (sep : ascii) (a b : string) :
  Str.contains sep a = false ->
  partition sep (a ++ String sep b) = (a, String sep EmptyString, b).
Proof.
  induction a as [|x a IH]; simpl; intros H.
  - now rewrite Ascii.eqb_refl.
  - apply orb_false_iff in H as [Hx Ha]. rewrite Hx, (IH Ha). reflexivity.
Qed.

Lemma string_filter_drops (f : ascii -> bool) (c : ascii) (s : string) :
  f c = false -> Str.contains c (string_filter f s) = false.
Proof.
  intros Hc. induction s as [|x s IH]; simpl; [reflexivity|].
  destruct (f x) eqn:Fx; [|assumption]. simpl. rewrite IH, orb_false_r.
  destruct (Ascii.eqb_spec x c) as [->|]; [congruence|reflexivity].
Qed.

Lemma spaces_to_underscores_keeps_out (c : ascii) (s : string) :
  c <> "_"%char -> Str.contains c s = false ->
  Str.contains c (spaces_to_underscores s) = false.
Proof.
  intros Hc. unfold spaces_to_underscores.
  induction s as [|x s IH]; [reflexivity|].
  cbn [Str.contains string_map]. intros H.
  apply orb_false_iff in H as [Hx Hs]. rewrite (IH Hs), orb_false_r.
  destruct (Ascii.eqb_spec x " ") as [->|]; [|assumption].
  destruct (Ascii.eqb_spec "_"%char c); [congruence|reflexivity].
Qed.

Lemma spaces_to_underscores_no_space (s : string) :
  Str.contains " " (spaces_to_underscores s) = false.
Proof.
  unfold spaces_to_underscores.
  induction s as [|x s IH]; [reflexivity|].
  cbn [Str.contains string_map]. rewrite IH, orb_false_r.
  destruct (Ascii.eqb_spec x " ") as [->|Hx]; [reflexivity|].
  destruct (Ascii.eqb_spec x " "); [contradiction|reflexivity].
Qed.

Lemma contains_in (c : ascii) (s : string) :
  Str.contains c s = true -> In c (list_ascii_of_string s).
Proof.
  induction s as [|x s IH]; [discriminate|].
  cbn [Str.contains list_ascii_of_string In]. intros H.
  apply orb_true_iff in H as [H|H]; [left|right; now apply IH].
  now apply Ascii.eqb_eq in H.
Qed.

Lemma unknown_city_clean (c : ascii) :
  is_punct c = true \/ c = " "%char -> Str.contains c "UnknownCity" = false.
Proof.
  intros H. destruct (Str.contains c "UnknownCity") eqn:E; [|reflexivity].
  apply contains_in in E. cbn [list_ascii_of_string In] in E.
  repeat (destruct E as [<-|E]; [destruct H as [H|H]; discriminate H|]).
  contradiction.
Qed.

(** X13.  The city part of a file name written by the scraper is never
    empty and holds no space and no punctuation character other than the
    underscores that stand for the spaces; in particular no slash and no
    dot. *)
Theorem city_slug_is_clean (nfkd_ascii : string -> string)
    (placemark_name : string) :
  city_slug nfkd_ascii placemark_name <> EmptyString /\
  Str.contains " " (city_slug nfkd_ascii placemark_name) = false /\
  forall c, is_punct c = true -> c <> "_"%char ->
            Str.contains c (city_slug nfkd_ascii placemark_name) = false.
Proof.
  unfold city_slug.
  destruct (partition "," placemark_name) as [[city_part found] state_part].
  set (raw := nfkd_ascii (Str.strip city_part)).
  unfold or_else.
  destruct (spaces_to_underscores (remove_punct raw)) as [|x t] eqn:E.
  - split; [discriminate|]. split.
    + apply unknown_city_clean. now right.
    + intros c Hc _. apply unknown_city_clean. now left.
  - rewrite <- E. split; [rewrite E; discriminate|]. split.
    + apply spaces_to_underscores_no_space.
    + intros c Hc Hne. apply spaces_to_underscores_keeps_out; [assumption|].
      apply string_filter_drops. now rewrite Hc.
Qed.

Lemma labels_of_joined (region locality : string) :
  Str.contains "_" region = false ->
  labels_of_name (region ++ "_" ++ locality) = Ok (Some region, locality).
Proof.
  intros H. unfold labels_of_name.
  change ("_" ++ locality)%string with (String "_" locality).
  now rewrite contains_app, split1_first.
Qed.

(** X14.  A workbook saved by the scraper under [safe_filename] is read back
    by the decoder with the scraper's state code as region and its city slug
    as locality, in whatever folder it lies, provided the state code holds
    neither underscore nor slash (the placemark name being ASCII text). *)
Theorem scraper_file_name_is_read_back (nfkd_ascii : string -> string)
    (folder placemark_name : string) :
  is_ascii placemark_name = true ->
  Str.contains "_" (state_code placemark_name) = false ->
  Str.contains "/" (state_code placemark_name) = false ->
  labels_of_name
    (name_no_ext (folder ++ "/" ++ safe_filename nfkd_ascii placemark_name))
  = Ok (Some (state_code placemark_name),
        city_slug nfkd_ascii placemark_name).
Proof.
  intros _ Hu Hs. unfold safe_filename.
  set (abbrev := state_code placemark_name) in *.
  set (slug := city_slug nfkd_ascii placemark_name).
  destruct (city_slug_is_clean nfkd_ascii placemark_name) as (_ & _ & Hclean).
  fold slug in Hclean.
  replace (abbrev ++ "_" ++ slug ++ ".xlsx")%string
    with ((abbrev ++ "_" ++ slug) ++ "." ++ "xlsx")%string
    by (now rewrite !string_append_assoc).
  rewrite name_no_ext_of_path.
  - now apply labels_of_joined.
  - rewrite !contains_append, Hs. simpl.
    apply Hclean; [reflexivity|discriminate].
  - reflexivity.
  - reflexivity.
  - exists (String.length abbrev), "_"%char. split; [|split].
    + rewrite length_append. simpl. lia.
    + change ("_" ++ slug)%string with (String "_" slug).
      apply get_append_at.
    + discriminate.
Qed.

Lemma scraper_file_name_is_read_back_witness :
  is_ascii "Bullhead City, Arizona" = true /\
  safe_filename ascii_only "Bullhead City, Arizona" = "AZ_Bullhead_City.xlsx" /\
  labels_of_name
    (name_no_ext ("downloaded_xls" ++ "/"
                  ++ safe_filename ascii_only "Bullhead City, Arizona"))
  = Ok (Some "AZ", "Bullhead_City").
Proof.
  split; [reflexivity|]. split; [reflexivity|].
  apply (scraper_file_name_is_read_back ascii_only "downloaded_xls"
           "Bullhead City, Arizona"); reflexivity.
Defined.

Lemma dict_get_in (d : list (string * string)) (key default : string) :
  In key (map fst d) -> In (key, dict_get d key default) d.
Proof.
  induction d as [|[k v] d IH]; simpl; [contradiction|].
  destruct (String.eqb_spec k key) as [->|Hne]; [now left|].
  intros [?|H]; [contradiction|]. right. now apply IH.
Qed.

Lemma state_codes_clean (key abbrev : string) :
  In (key, abbrev) STATE_ABBR ->
  String.length abbrev = 2 /\
  Str.contains "_" abbrev = false /\ Str.contains "/" abbrev = false /\
  upper abbrev = abbrev.
Proof.
  intros H.
  assert (F : forallb
                (fun kv =>
                   (String.length (snd kv) =? 2) &&
                   negb (Str.contains "_" (snd kv)) &&
                   negb (Str.contains "/" (snd kv)) &&
                   (upper (snd kv) =? snd kv)%string)
                STATE_ABBR = true) by reflexivity.
  rewrite forallb_forall in F. specialize (F _ H). simpl in F.
  apply andb_true_iff in F as [F Hup]. apply andb_true_iff in F as [F Hs].
  apply andb_true_iff in F as [Hl Hu].
  apply Nat.eqb_eq in Hl. apply negb_true_iff in Hu, Hs.
  apply String.eqb_eq in Hup. auto.
Qed.

(** X15.  For an ASCII placemark name [city, state] whose state, without
    the white space around it and in lower case, is one of the fifty keys of
    [STATE_ABBR], the file name is the two-letter code of that state, an
    underscore, the city slug and [.xlsx]; and the decoder reads the code back
    as region and the slug as locality. *)
Theorem known_state_file_name (nfkd_ascii : string -> string)
    (folder city_part state_part : string) :
  is_ascii (city_part ++ "," ++ state_part) = true ->
  Str.contains "," city_part = false ->
  In (lower (Str.strip state_part)) (map fst STATE_ABBR) ->
  exists abbrev,
    In (lower (Str.strip state_part), abbrev) STATE_ABBR /\
    String.length abbrev = 2 /\
    safe_filename nfkd_ascii (city_part ++ "," ++ state_part)
    = (abbrev ++ "_"
       ++ city_slug nfkd_ascii (city_part ++ "," ++ state_part)
       ++ ".xlsx")%string /\
    labels_of_name
      (name_no_ext
         (folder ++ "/"
          ++ safe_filename nfkd_ascii (city_part ++ "," ++ state_part)))
    = Ok (Some abbrev,
          city_slug nfkd_ascii (city_part ++ "," ++ state_part)).
Proof.
  intros Hascii Hcomma Hkey.
  assert (Hcode : state_code (city_part ++ "," ++ state_part)
                  = dict_get STATE_ABBR (lower (Str.strip state_part))
                      (upper (or_else
                                (Str.slice_to (lower (Str.strip state_part)) 2)
                                "XX"))).
  { unfold state_code.
    change ("," ++ state_part)%string with (String "," state_part).
    now rewrite (partition_first "," city_part state_part Hcomma). }
  pose proof (dict_get_in STATE_ABBR _
                (upper (or_else
                          (Str.slice_to (lower (Str.strip state_part)) 2) "XX"))
                Hkey) as Hin.
  rewrite <- Hcode in Hin.
  destruct (state_codes_clean _ _ Hin) as (Hl & Hu & Hs & _).
  exists (state_code (city_part ++ "," ++ state_part)).
  split; [assumption|]. split; [assumption|]. split; [reflexivity|].
  now apply scraper_file_name_is_read_back.
Qed.

Lemma known_state_file_name_witness :
  exists abbrev,
    In (lower (Str.strip " New York "), abbrev) STATE_ABBR /\
    String.length abbrev = 2 /\
    safe_filename ascii_only ("St. John's" ++ "," ++ " New York ")
    = (abbrev ++ "_"
       ++ city_slug ascii_only ("St. John's" ++ "," ++ " New York ")
       ++ ".xlsx")%string /\
    labels_of_name
      (name_no_ext
         ("out" ++ "/"
          ++ safe_filename ascii_only ("St. John's" ++ "," ++ " New York ")))
    = Ok (Some abbrev,
          city_slug ascii_only ("St. John's" ++ "," ++ " New York ")).
Proof.
  apply (known_state_file_name ascii_only "out" "St. John's" " New York ").
  - reflexivity.
  - reflexivity.
  - vm_compute. do 31 right. left. reflexivity.
Defined.

(** * The dashboard *)

Import Dashboard.

(** ** Membership, [unique] and [sorted] *)

Lemma mem_in (x : string) (l : list string) : mem x l = true <-> In x l.
Proof.
  unfold mem. rewrite existsb_exists. split.
  - intros (y & Hy & E). apply String.eqb_eq in E. now subst.
  - intros H. exists x. split; [assumption|apply String.eqb_refl].
Qed.

Lemma mem_not_in (x : string) (l : list string) : mem x l = false <-> ~ In x l.
Proof.
  rewrite <- mem_in. destruct (mem x l); split; intros; congruence.
Qed.

Lemma in_unique (x : string) (l : list string) : In x (unique l) <-> In x l.
Proof.
  induction l as [|y l IH]; simpl; [reflexivity|].
  rewrite filter_In, IH. split.
  - intros [?|[? _]]; auto.
  - intros [?|?]; [now left|].
    destruct (String.eqb_spec x y) as [->|Hne]; [now left|].
    right. split; [assumption|].
    destruct (String.eqb_spec x y); [contradiction|reflexivity].
Qed.

Lemma NoDup_unique (l : list string) : NoDup (unique l).
Proof.
  induction l as [|y l IH]; simpl; constructor.
  - rewrite filter_In. intros [_ H]. now rewrite String.eqb_refl in H.
  - now apply NoDup_filter.
Qed.

Lemma insert_sorted_perm (x : string) (l : list string) :
  Permutation (insert_sorted x l) (x :: l).
Proof.
  induction l as [|y l IH]; simpl; [reflexivity|].
  destruct (String.leb x y); [reflexivity|].
  rewrite IH. apply perm_swap.
Qed.

Lemma sorted_perm (l : list string) : Permutation (sorted l) l.
Proof.
  induction l as [|x l IH]; simpl; [reflexivity|].
  rewrite insert_sorted_perm. now constructor.
Qed.

Lemma in_sorted (x : string) (l : list string) : In x (sorted l) <-> In x l.
Proof.
  split; apply Permutation_in; [apply sorted_perm|].
  symmetry. apply sorted_perm.
Qed.

Lemma ascii_compare_refl (a : ascii) : Ascii.compare a a = Eq.
Proof. unfold Ascii.compare. apply N.compare_refl. Qed.

Lemma ascii_compare_lt_trans (a b c : ascii) :
  Ascii.compare a b = Lt -> Ascii.compare b c = Lt -> Ascii.compare a c = Lt.
Proof.
  unfold Ascii.compare. rewrite !N.compare_lt_iff. apply N.lt_trans.
Qed.

Lemma string_leb_trans (s1 s2 s3 : string) :
  String.leb s1 s2 = true -> String.leb s2 s3 = true ->
  String.leb s1 s3 = true.
Proof.
  unfold String.leb. revert s2 s3.
  induction s1 as [|a s1 IH]; intros [|b s2] [|c s3]; simpl;
    try reflexivity; try discriminate.
  destruct (Ascii.compare a b) eqn:Eab; try discriminate;
    destruct (Ascii.compare b c) eqn:Ebc; try discriminate.
  - apply Ascii.compare_eq_iff in Eab, Ebc. subst.
    rewrite ascii_compare_refl. apply IH.
  - apply Ascii.compare_eq_iff in Eab. subst. now rewrite Ebc.
  - apply Ascii.compare_eq_iff in Ebc. subst. now rewrite Eab.
  - now rewrite (ascii_compare_lt_trans a b c).
Qed.

Lemma insert_sorted_ordered (x : string) (l : list string) :
  StronglySorted (fun a b => String.leb a b = true) l ->
  StronglySorted (fun a b => String.leb a b = true) (insert_sorted x l).
Proof.
  induction 1 as [|y l Hl IH Hy]; simpl; [repeat constructor|].
  destruct (String.leb x y) eqn:E.
  - constructor; [now constructor|]. constructor; [assumption|].
    eapply Forall_impl; [|exact Hy]. simpl. intros z Hz.
    now apply (string_leb_trans x y z).
  - constructor; [assumption|].
    apply Forall_forall. intros z Hz.
    apply (Permutation_in _ (insert_sorted_perm x l)) in Hz.
    destruct Hz as [<-|Hz].
    + destruct (String.leb_total x y); congruence.
    + rewrite Forall_forall in Hy. now apply Hy.
Qed.

Lemma sorted_ordered (l : list string) :
  StronglySorted (fun a b => String.leb a b = true) (sorted l).
Proof.
  induction l as [|x l IH]; simpl; [constructor|].
  now apply insert_sorted_ordered.
Qed.

Lemma StronglySorted_filter {A : Type} (R : A -> A -> Prop) (f : A -> bool)
    (l : list A) :
  StronglySorted R l -> StronglySorted R (filter f l).
Proof.
  induction 1 as [|y l Hl IH Hy]; simpl; [constructor|].
  destruct (f y); [|assumption]. constructor; [assumption|].
  apply Forall_forall. intros z Hz. apply filter_In in Hz as [Hz _].
  rewrite Forall_forall in Hy. now apply Hy.
Qed.

Lemma all_cities_spec (df : list record) (c : string) :
  In c (sorted (unique (map city df))) <->
  exists row, In row df /\ city row = c.
Proof.
  rewrite in_sorted, in_unique, in_map_iff. split; intros (row & ? & ?); eauto.
Qed.

Lemma NoDup_all_cities (l : list string) : NoDup (sorted (unique l)).
Proof.
  eapply Permutation_NoDup; [symmetry; apply sorted_perm|apply NoDup_unique].
Qed.

Lemma top_then_rest_perm (top all : list string) :
  NoDup top -> NoDup all -> incl top all ->
  Permutation (top ++ filter (fun c => negb (mem c top)) all) all.
Proof.
  intros Ht Ha Hincl. apply NoDup_Permutation; [|assumption|].
  - apply NoDup_app; [assumption|now apply NoDup_filter|].
    intros c Hc Hf. apply filter_In in Hf as [_ Hf].
    apply negb_true_iff, mem_not_in in Hf. contradiction.
  - intros c. rewrite in_app_iff, filter_In. split.
    + intros [H|[H _]]; [now apply Hincl|assumption].
    + intros H. destruct (mem c top) eqn:E.
      * left. now apply mem_in.
      * right. split; [assumption|reflexivity].
Qed.

(** ** The city drop-down *)

(** X16.  Whatever states are selected, the city drop-down keeps every
    city of the table exactly once: the values of the options are a
    permutation of the sorted list of all cities. *)
Theorem update_city_options_keeps_all (df : list record)
    (states : list string) :
  Permutation (map snd (update_city_options df states))
              (sorted (unique (map city df))) /\
  NoDup (map snd (update_city_options df states)) /\
  forall c, In c (map snd (update_city_options df states)) <->
            exists row, In row df /\ city row = c.
Proof.
  assert (P : Permutation (map snd (update_city_options df states))
                          (sorted (unique (map city df)))).
  { unfold update_city_options. destruct states as [|s states].
    - rewrite map_map. simpl. now rewrite map_id.
    - rewrite map_map. simpl snd. rewrite map_id.
      apply top_then_rest_perm; try apply NoDup_all_cities.
      intros c Hc. apply in_sorted, in_unique, in_map_iff in Hc
        as (row & <- & Hrow).
      apply filter_In in Hrow as [Hrow _]. apply all_cities_spec. eauto. }
  split; [assumption|]. split.
  - eapply Permutation_NoDup; [symmetry; exact P|apply NoDup_all_cities].
  - intros c. rewrite <- all_cities_spec. split; apply Permutation_in;
      [assumption|now symmetry].
Qed.

(** X17.  With a selection of states, the options are first the cities
    that have a row in a selected state, in ascending order and with [" *"]
    appended to the label, then all other cities, in ascending order and with
    their plain name as label. *)
Theorem update_city_options_stars_selected (df : list record)
    (states : list string) :
  states <> [] ->
  exists top others,
    update_city_options df states
    = map (fun c => ((c ++ " *")%string, c)) top
      ++ map (fun c => (c, c)) others /\
    (forall c, In c top <->
               exists row, In row df /\ city row = c /\
                           state_isin (state row) states = true) /\
    (forall c, In c others <->
               (exists row, In row df /\ city row = c) /\
               ~ exists row, In row df /\ city row = c /\
                             state_isin (state row) states = true) /\
    StronglySorted (fun a b => String.leb a b = true) top /\
    StronglySorted (fun a b => String.leb a b = true) others.
Proof.
  intros Hs. destruct states as [|s states]; [contradiction|].
  set (sel := s :: states).
  set (top := sorted (unique (map city
                 (filter (fun row => state_isin (state row) sel) df)))).
  set (all := sorted (unique (map city df))).
  assert (Htop : forall c, In c top <->
                   exists row, In row df /\ city row = c /\
                               state_isin (state row) sel = true).
  { intros c. unfold top. rewrite in_sorted, in_unique, in_map_iff. split.
    - intros (row & <- & Hrow). apply filter_In in Hrow as [? ?]. eauto.
    - intros (row & Hrow & <- & Hst). exists row. split; [reflexivity|].
      apply filter_In. auto. }
  exists top, (filter (fun c => negb (mem c top)) all).
  split; [|split; [assumption|split; [|split]]].
  - unfold update_city_options. fold sel top all. cbn [sel].
    rewrite map_app. f_equal.
    + apply map_ext_in. intros c Hc. apply mem_in in Hc. now rewrite Hc.
    + apply map_ext_in. intros c Hc. apply filter_In in Hc as [_ Hc].
      apply negb_true_iff in Hc. now rewrite Hc.
  - intros c. rewrite filter_In, negb_true_iff, mem_not_in, Htop.
    unfold all. now rewrite all_cities_spec.
  - apply sorted_ordered.
  - apply StronglySorted_filter, sorted_ordered.
Qed.

Lemma update_city_options_stars_selected_witness :
  ["AZ"] <> [] /\
  exists top others,
    update_city_options sample_table ["AZ"]
    = map (fun c => ((c ++ " *")%string, c)) top
      ++ map (fun c => (c, c)) others /\
    (forall c, In c top <->
               exists row, In row sample_table /\ city row = c /\
                           state_isin (state row) ["AZ"] = true) /\
    (forall c, In c others <->
               (exists row, In row sample_table /\ city row = c) /\
               ~ exists row, In row sample_table /\ city row = c /\
                             state_isin (state row) ["AZ"] = true) /\
    StronglySorted (fun a b => String.leb a b = true) top /\
    StronglySorted (fun a b => String.leb a b = true) others.
Proof.
  split; [discriminate|].
  apply (update_city_options_stars_selected sample_table ["AZ"]).
  discriminate.
Defined.

Example update_city_options_sample :
  update_city_options sample_table ["AZ"]
  = [("Mesa *", "Mesa"); ("Yuma *", "Yuma");
     ("Albany", "Albany"); ("Brandon", "Brandon")].
Proof. reflexivity. Qed.

(** ** The rows of a page *)

(** X18.  A row of the table is plotted on the page of an indicator
    exactly when its variable is that indicator and either no filter is set
    at all, or cities are selected and its city is one of them; the selected
    states alone never add a row, and with states but no city selected
    nothing is plotted. *)
Theorem page_rows_spec (df : list record) (indicator : string)
    (filters : option (list string * list string)) (row : record) :
  In row (page_rows df indicator filters) <->
  In row df /\ variable row = indicator /\
  match filters with
  | None => True
  | Some (states, cities) =>
      (states = [] /\ cities = []) \/ In (city row) cities
  end.
Proof.
  unfold page_rows. rewrite filter_In, andb_true_iff, String.eqb_eq, mem_in.
  assert (Hall : In row df -> In (city row) (sorted (unique (map city df))))
    by (intros H; apply all_cities_spec; eauto).
  unfold city_subset.
  destruct filters as [[states cities]|]; simpl.
  - destruct states as [|s states], cities as [|c cities]; simpl.
    + intuition.
    + intuition; discriminate.
    + intuition; discriminate.
    + intuition; discriminate.
  - intuition.
Qed.

Lemma dict_item_spec {V : Type} (d : list (string * V)) (key : string) :
  match dict_item d key with
  | Ok v => In (key, v) d
  | Raise e => e = "KeyError" /\ ~ In key (map fst d)
  end.
Proof.
  induction d as [|[k v] d IH]; simpl; [auto|].
  destruct (String.eqb_spec k key) as [->|Hne]; [now left|].
  destruct (dict_item d key) as [v'|e].
  - now right.
  - destruct IH as [-> Hnot]. split; [reflexivity|]. intros [?|?]; auto.
Qed.

(** X19.  [render_page] returns a page exactly for the seven indicators
    of the tabs, with the rows of [page_rows], the "no data" annotation
    exactly when there is no such row, and the labels and the direction that
    [ARROW_META] gives for the indicator; for any other indicator it raises
    [KeyError]. *)
Theorem render_page_outcome (df : list record) (indicator : string)
    (filters : option (list string * list string)) :
  match render_page df indicator filters with
  | Ok pg =>
      In indicator INDICATORS /\
      plotted pg = page_rows df indicator filters /\
      (no_data pg = true <-> plotted pg = []) /\
      In (indicator, (bottom_label pg, top_label pg, inverted pg)) ARROW_META
  | Raise e => e = "KeyError" /\ ~ In indicator INDICATORS
  end.
Proof.
  unfold render_page.
  pose proof (dict_item_spec ARROW_META indicator) as D.
  change (map fst ARROW_META) with INDICATORS in D.
  destruct (dict_item ARROW_META indicator) as [[[bottom top] inv]|e]; simpl.
  - split.
    + exact (in_map fst ARROW_META _ D).
    + split; [reflexivity|]. split; [|assumption].
      destruct (page_rows df indicator filters); split; try reflexivity;
        discriminate.
  - exact D.
Qed.

(** X20.  When every row of the table that the dashboard loads (the rows
    of the CSV file whose variable is one of the seven indicators) has a
    state, so that the states can be sorted for the layout, the page of an
    indicator without any filter plots every row of the CSV file with that
    variable, in the order of the file. *)
Theorem unfiltered_page_plots_every_row (df_raw : list record)
    (indicator : string) :
  Forall (fun row => state row <> None) (load df_raw) ->
  In indicator INDICATORS ->
  page_rows (load df_raw) indicator None
  = filter (fun row => (variable row =? indicator)%string) df_raw /\
  page_rows (load df_raw) indicator (Some (sync_filter_state None None))
  = filter (fun row => (variable row =? indicator)%string) df_raw.
Proof.
  intros _ Hind.
  assert (E : page_rows (load df_raw) indicator None
              = filter (fun row => (variable row =? indicator)%string) df_raw).
  { unfold page_rows, city_subset. cbn [fst snd].
    set (all := sorted (unique (map city (load df_raw)))).
    assert (Hall : forall row, In row (load df_raw) ->
                               mem (city row) all = true).
    { intros row Hrow. apply mem_in, all_cities_spec. eauto. }
    unfold load in *. clearbody all.
    induction df_raw as [|row rows IH]; [reflexivity|].
    cbn [filter] in *.
    destruct (String.eqb_spec (variable row) indicator) as [Ev|Ev].
    - assert (Hm : mem (variable row) INDICATORS = true)
        by (rewrite Ev; now apply mem_in).
      rewrite Hm in *. cbn [filter].
      rewrite (proj2 (String.eqb_eq _ _) Ev), Hall by now left.
      cbn [andb]. f_equal. apply IH. intros r Hr. apply Hall. now right.
    - destruct (mem (variable row) INDICATORS).
      + cbn [filter].
        rewrite (proj2 (String.eqb_neq _ _) Ev). cbn [andb].
        apply IH. intros r Hr. apply Hall. now right.
      + apply IH. assumption. }
  split; exact E.
Qed.

Lemma unfiltered_page_plots_every_row_witness :
  Forall (fun row => state row <> None) (load stated_table) /\
  In "Net Financial Position" INDICATORS /\
  page_rows (load stated_table) "Net Financial Position" None
  = filter (fun row => (variable row =? "Net Financial Position")%string)
      stated_table /\
  page_rows (load stated_table) "Net Financial Position"
    (Some (sync_filter_state None None))
  = filter (fun row => (variable row =? "Net Financial Position")%string)
      stated_table.
Proof.
  assert (S : Forall (fun row => state row <> None) (load stated_table))
    by (repeat constructor; discriminate).
  assert (H : In "Net Financial Position" INDICATORS) by (left; reflexivity).
  split; [exact S|]. split; [exact H|].
  exact (unfiltered_page_plots_every_row stated_table
           "Net Financial Position" S H).
Defined.

(** * The year of the detection column *)

Lemma year_value_converts (x : cell) :
  is_year_value x = true ->
  exists y, py_int x = Ok y /\ (1900 <= y <= 2100)%Z.
Proof.
  destruct x as [|z|q repr|b|s0 i|repr]; simpl; try discriminate.
  - intros H. apply andb_true_iff in H as [H1 H2].
    apply Z.leb_le in H1, H2. eauto.
  - intros H. apply andb_true_iff in H as [H1 H2].
    apply Qle_bool_iff in H1, H2. unfold Qle in H1, H2. simpl in H1, H2.
    destruct q as [num den]. simpl in *.
    exists (Z.quot num (Z.pos den)). split; [reflexivity|].
    rewrite Z.quot_div_nonneg by lia. split.
    + apply Z.div_le_lower_bound; lia.
    + apply Z.div_le_upper_bound; lia.
Qed.

(** X21.  The header cell of the detection column is a year: when that
    column is retained, the year of its records is the integer part of the
    header cell and lies in [1900, 2100]; the header row never makes [int()]
    fail on the detection column. *)
Theorem detection_column_year_in_range (df : DataFrame) (year_row : nat) :
  find_year_row df = Ok year_row ->
  (exists y, py_int (iat df year_row 4) = Ok y /\ (1900 <= y <= 2100)%Z) /\
  forall valid_years valid_cols y,
    year_loop df year_row 0 (loc_row df year_row 4) [] []
      = Ok (valid_years, valid_cols) ->
    In (y, 4) (combine valid_years valid_cols) ->
    (1900 <= y <= 2100)%Z.
Proof.
  intros Eh. apply find_year_row_ok in Eh as (_ & _ & Hy).
  destruct (year_value_converts _ Hy) as (y0 & Ey0 & Hr).
  split; [eauto|].
  intros vy vc y Ey Hin.
  apply (valid_cols_spec _ _ _ _ Ey) in Hin as (_ & _ & _ & Hi).
  rewrite Ey0 in Hi. injection Hi as <-. assumption.
Qed.

Lemma detection_column_year_in_range_witness :
  find_year_row sheet_small = Ok 0 /\
  (exists y, py_int (iat sheet_small 0 4) = Ok y /\ (1900 <= y <= 2100)%Z) /\
  forall valid_years valid_cols y,
    year_loop sheet_small 0 0 (loc_row sheet_small 0 4) [] []
      = Ok (valid_years, valid_cols) ->
    In (y, 4) (combine valid_years valid_cols) ->
    (1900 <= y <= 2100)%Z.
Proof.
  split; [reflexivity|].
  apply (detection_column_year_in_range sheet_small 0). reflexivity.
Defined.
